(** * soju-upload-handler-aws: the upload handler, embedded and verified

    The handler of [packages/functions/src/index.ts] (the revision with
    content sniffing, kept under [src/unnamed/part_001], and the earlier
    revision kept under [src/index.ts]) is translated definition by
    definition.  JavaScript strings are sequences of code units and are
    modelled by [string]; every string operation the handler uses
    ([split], [slice], [pop], [includes], concatenation) is indifferent
    to the width of a code unit.  Buffers are [list byte].

    The Node runtime and the npm packages the handler calls but does not
    define (the text encodings behind [Buffer.from], [file-type]'s
    sniffer) are an interface, [Runtime]; the services whose answers the
    handler cannot predict (the entropy source, the clock, S3) are part of
    the environment [Env]; what an invocation changes (entropy consumed,
    the S3 requests sent, the console) is the state [State].

    The pure parts of the deployment, [sst.config.ts], are the module
    [Config]: what [app] returns, and the environment and permissions
    that [run] gives the route of the handler. *)

From Stdlib Require Import ZArith Ascii String Lia.
From Stdlib.Strings Require Import Byte.
From stdpp Require Import gmap strings list pretty.

Local Open Scope Z_scope.

(** ** JavaScript library functions used by the handler *)

Module JS.

(** The double quote, as a one-character string. *)
Definition dquote : string := String "034"%char "".

(** [String.prototype.split(sep)] for a non-empty separator: the scan
    goes left to right, [skip] counts the code units of a separator that
    was just matched and still has to be stepped over. *)
Fixpoint split_scan (sep : string) (skip : nat) (s : string) : list string :=
  match s with
  | EmptyString => [EmptyString]
  | String c s' =>
      match skip with
      | S k => split_scan sep k s'
      | O =>
          if String.prefix sep s
          then EmptyString :: split_scan sep (String.length sep - 1) s'
          else match split_scan sep 0 s' with
               | h :: t => String c h :: t
               | [] => [String c EmptyString]
               end
      end
  end.

(** With the empty separator [split] yields the code units one by one. *)
Fixpoint split_units (s : string) : list string :=
  match s with
  | EmptyString => []
  | String c s' => String c EmptyString :: split_units s'
  end.

Definition split (sep s : string) : list string :=
  match sep with
  | EmptyString => split_units s
  | _ => split_scan sep 0 s
  end.

(** [Array.prototype.pop]'s result: the last element, [undefined] (here
    [None]) on the empty array. *)
Definition pop (l : list string) : option string := last l.

(** [String.prototype.slice(start, end)], with JavaScript's treatment of
    negative and out-of-range indices. *)
Definition slice (s : string) (start stop : Z) : string :=
  let len := Z.of_nat (String.length s) in
  let from := if start <? 0 then Z.max (len + start) 0 else Z.min start len in
  let to := if stop <? 0 then Z.max (len + stop) 0 else Z.min stop len in
  let span := Z.max (to - from) 0 in
  String.substring (Z.to_nat from) (Z.to_nat span) s.

(** [Array.prototype.includes] on an array of strings. *)
Definition includes (l : list string) (x : string) : bool :=
  existsb (String.eqb x) l.

(** [Buffer.prototype.toString("hex")]. *)
Definition hex_digit (n : N) : ascii :=
  match String.get (N.to_nat n) "0123456789abcdef" with
  | Some c => c
  | None => "0"%char
  end.

Definition hex_of_byte (b : byte) : string :=
  String (hex_digit (Byte.to_N b / 16)%N)
    (String (hex_digit (Byte.to_N b mod 16)%N) EmptyString).

Fixpoint toString_hex (buf : list byte) : string :=
  match buf with
  | [] => EmptyString
  | b :: buf' => hex_of_byte b +:+ toString_hex buf'
  end.

(** [Number.prototype.toString()] on an integer. *)
Definition Number_toString (n : Z) : string := pretty n.

(** What a [throw] carries: an [Error] object with its message, or any
    other value, of which only [String(value)] is ever observed. *)
Inductive Thrown : Type :=
  | JsError (message : string)
  | JsValue (asString : string).

End JS.

(** ** The runtime interface, the environment and the state *)

(** Result of [fileTypeFromBuffer]. *)
Record FileTypeResult := { mime : string; ext : string }.

(** What the handler takes from Node and from npm packages without
    defining it: the encodings behind [Buffer.from(s, "utf-8")],
    [buf.toString("base64")] and [Buffer.from(s, "base64")], and
    [file-type]'s [fileTypeFromBuffer] ([None] when it resolves to
    [undefined]). *)
Class Runtime := {
  utf8_encode : string -> list byte;
  base64_encode : list byte -> string;
  base64_decode : string -> list byte;
  fileTypeFromBuffer : list byte -> option FileTypeResult;
}.

Inductive BufferEncoding := Utf8 | Base64.

Definition Buffer_from `{Runtime} (s : string) (enc : BufferEncoding) : list byte :=
  match enc with
  | Utf8 => utf8_encode s
  | Base64 => base64_decode s
  end.

Definition toString_base64 `{Runtime} (buf : list byte) : string := base64_encode buf.

Definition byteLength (buf : list byte) : Z := Z.of_nat (length buf).

(** The commands the handler sends through [S3Client.send]. *)
Inductive S3Command :=
  | HeadObjectCommand (Bucket Key : string)
  | PutObjectCommand (Bucket Key : string) (Body : list byte)
      (ContentType ContentEncoding ACL : string).

(** What an invocation reads and cannot predict.  [S3_send sent cmd] is
    the service's answer to [cmd] after the requests [sent]: [None] when
    the promise resolves, [Some e] when it rejects with [e]. *)
Record Env := {
  USERNAME_ALLOW_LIST : option string;
  CDN_DOMAIN : option string;
  ExistingStorage_name : string;
  Date_now : Z;
  randomBytes_source : nat -> byte;
  S3_send : list S3Command -> S3Command -> option JS.Thrown;
}.

(** What an invocation changes. *)
Record State := {
  entropy_used : nat;
  s3_sent : list S3Command;
  console : list string;
}.

Definition initial : State :=
  {| entropy_used := 0; s3_sent := []; console := [] |}.

(** The fields of the API Gateway event the handler reads. *)
Record RequestEvent := {
  headers : gmap string string;
  body : option string;
  isBase64Encoded : bool;
}.

Record Response := {
  statusCode : Z;
  responseBody : string;
  responseHeaders : option (gmap string string);
}.

(** ** Computations: state, and completion by value or by [throw] *)

Inductive Completion (A : Type) :=
  | Normal (a : A)
  | Throw (e : JS.Thrown).
Arguments Normal {A} a.
Arguments Throw {A} e.

Definition Js (A : Type) : Type := State -> Completion A * State.

Definition ret {A} (a : A) : Js A := fun st => (Normal a, st).

Definition throw {A} (e : JS.Thrown) : Js A := fun st => (Throw e, st).

Definition bind {A B} (m : Js A) (k : A -> Js B) : Js B :=
  fun st =>
    match m st with
    | (Normal a, st') => k a st'
    | (Throw e, st') => (Throw e, st')
    end.

(** [try { m } catch (e) { h e }]. *)
Definition try_catch {A} (m : Js A) (h : JS.Thrown -> Js A) : Js A :=
  fun st =>
    match m st with
    | (Normal a, st') => (Normal a, st')
    | (Throw e, st') => h e st'
    end.

Notation "'let*' x ':=' m 'in' k" := (bind m (fun x => k))
  (at level 10, x name, m at level 100, k at level 200).
Notation "'do' m 'then' k" := (bind m (fun _ => k))
  (at level 10, m at level 100, k at level 200).

Section Handler.

Context `{Runtime} (env : Env).

(** [crypto.randomBytes(n)]: the next [n] bytes of the entropy source. *)
Definition randomBytes (n : nat) : Js (list byte) :=
  fun st =>
    (Normal (map (randomBytes_source env) (seq (entropy_used st) n)),
     {| entropy_used := entropy_used st + n;
        s3_sent := s3_sent st;
        console := console st |}).

(** [await client.send(command)]: the request is recorded, then the
    promise resolves or rejects as the service decides. *)
Definition send (command : S3Command) : Js unit :=
  fun st =>
    let st' := {| entropy_used := entropy_used st;
                  s3_sent := s3_sent st ++ [command];
                  console := console st |} in
    match S3_send env (s3_sent st) command with
    | None => (Normal tt, st')
    | Some e => (Throw e, st')
    end.

Definition console_log (line : string) : Js unit :=
  fun st =>
    (Normal tt,
     {| entropy_used := entropy_used st;
        s3_sent := s3_sent st;
        console := console st ++ [line] |}).

(** ** The handler, [part_001] *)

Definition ALLOWED_MIME_TYPES : gset string :=
  list_to_set
    [ "application/pdf"; "audio/aac"; "audio/mp4"; "audio/mpeg"; "audio/ogg";
      "audio/webm"; "image/apng"; "image/gif"; "image/jpeg"; "image/png";
      "image/webp"; "text/plain"; "video/mp4"; "video/ogg"; "video/webm" ].

Definition MAX_FILE_SIZE : Z := 50 * 1024 * 1024.

(** The pure part of [filenameWithRandomSuffix]: [randomString] is
    [crypto.randomBytes(4).toString("hex")]. *)
Definition withSuffix (filename randomString : string) : string :=
  let ext := JS.pop (JS.split "." filename) in
  let name :=
    match ext with
    | Some e => JS.slice filename 0 (- Z.of_nat (String.length e) - 1)
    | None => filename
    end in
  let obfuscated := name +:+ "-" +:+ randomString in
  let newFilename :=
    match ext with
    | Some e => obfuscated +:+ "." +:+ e
    | None => obfuscated
    end in
  newFilename.

Definition filenameWithRandomSuffix (filename : string) : Js string :=
  let* bytes := randomBytes 4 in
  ret (withSuffix filename (JS.toString_hex bytes)).

(** The recursive call sits inside the [try] block and is awaited there
    ([return await ...]), so whatever it throws reaches this call's
    [catch]. *)
Fixpoint uniqueFilenameForBucket (filename bucketName : string)
    (attemptsRemaining : nat) : Js string :=
  match attemptsRemaining with
  | O => throw (JS.JsError "Could not generate a unique filename")
  | S attempts =>
      let* newFilename := filenameWithRandomSuffix filename in
      let command := HeadObjectCommand bucketName newFilename in
      try_catch
        (do send command then
         uniqueFilenameForBucket filename bucketName attempts)
        (fun _ => ret newFilename)
  end.

Record InboundFile := {
  filename : string;
  contentType : string;
  content : list byte;
  encoding : string;
}.

(** What [undefined.split(...)] throws under V8. *)
Definition TypeError_split : JS.Thrown :=
  JS.JsError "Cannot read properties of undefined (reading 'split')".

(** Lines 128-139: the content type and extension, declared or sniffed. *)
Definition resolveContentType (event : RequestEvent) (buffer : list byte)
    : string * string :=
  let contentType := headers event !! "content-type" in
  let extension :=
    default "bin"
      (ct ← contentType; part ← JS.split "/" ct !! 1%nat;
       JS.split "+" part !! 0%nat) in
  let sniffed :=
    let detectedType := fileTypeFromBuffer buffer in
    (default "application/octet-stream" (mime <$> detectedType),
     default "bin" (ext <$> detectedType)) in
  match contentType with
  | None => sniffed
  | Some ct =>
      if String.eqb ct "application/octet-stream"
         || String.eqb ct "application/x-www-form-urlencoded"
      then sniffed
      else (ct, extension)
  end.

(** Lines 141-144: the filename, extracted or synthesized.  A header
    that is [undefined] or the empty string is falsy.  Element [1] of the
    first split is [undefined] when the token is missing, and calling
    [split] on it throws; element [0] of a split always exists
    ([split_not_nil]). *)
Definition resolveFilename (event : RequestEvent) (extension : string)
    : Js string :=
  let synthesized :=
    "upload-" +:+ JS.Number_toString (Date_now env) +:+ "." +:+ extension in
  match headers event !! "content-disposition" with
  | None => ret synthesized
  | Some cd =>
      if String.eqb cd "" then ret synthesized
      else
        match JS.split ("filename=" +:+ JS.dquote) cd !! 1%nat with
        | None => throw TypeError_split
        | Some rest => ret (default "" (JS.split JS.dquote rest !! 0%nat))
        end
  end.

(** Lines 127-152: the immediately invoked function that builds [file]. *)
Definition resolveFile (event : RequestEvent) (buffer : list byte)
    : Js InboundFile :=
  let '(contentType, extension) := resolveContentType event buffer in
  let* filename := resolveFilename event extension in
  ret {| filename := filename;
         contentType := contentType;
         content := buffer;
         encoding := "utf-8" |}.

(** Lines 199-204. *)
Definition publicUrl (newFilename : string) : string :=
  let domain :=
    match CDN_DOMAIN env with
    | Some d => if String.eqb d "" then ExistingStorage_name env +:+ ".s3.amazonaws.com" else d
    | None => ExistingStorage_name env +:+ ".s3.amazonaws.com"
    end in
  "https://" +:+ domain +:+ "/" +:+ newFilename.

Definition decodeBody (event : RequestEvent) (body : string) : list byte :=
  Buffer_from
    (if isBase64Encoded event then body
     else toString_base64 (Buffer_from body Utf8))
    Base64.

(** Lines 181-211: the key is allocated (the third argument of
    [uniqueFilenameForBucket] takes its default, 3), the object is
    written, the response is built.  The earlier revision has the same
    lines ([src/index.ts] 139-169) but for the status code, 200 there
    and 201 here, which is the parameter [created]. *)
Definition storeFile (created : Z) (file : InboundFile) : Js Response :=
  let* newFilename :=
    uniqueFilenameForBucket (filename file) (ExistingStorage_name env) 3 in
  do console_log
       ("Uploading " +:+ filename file +:+ " to "
        +:+ ExistingStorage_name env +:+ " as " +:+ newFilename +:+ "...")
  then
  let command :=
    PutObjectCommand (ExistingStorage_name env) newFilename
      (content file) (contentType file) (encoding file) "public-read" in
  do send command then
  let url := publicUrl newFilename in
  ret {| statusCode := created;
         responseBody := "SUCCESS: " +:+ url;
         responseHeaders := Some {[ "location" := url ]} |}.

(** The [try] block of [upload], lines 112-211; each early [return] is
    the branch of its [if]. *)
Definition upload_try (event : RequestEvent) : Js Response :=
  match body event with
  | None =>
      ret {| statusCode := 400; responseBody := "ERR: Missing body";
             responseHeaders := None |}
  | Some body =>
      let buffer := decodeBody event body in
      if MAX_FILE_SIZE <? byteLength buffer then
        ret {| statusCode := 413; responseBody := "ERR: File too large";
               responseHeaders := None |}
      else
        let* file := resolveFile event buffer in
        match headers event !! "soju-username" with
        | None =>
            ret {| statusCode := 400; responseBody := "ERR: Missing `username`";
                   responseHeaders := None |}
        | Some username =>
            let allowedUsernames :=
              JS.split "," (default "" (USERNAME_ALLOW_LIST env)) in
            if negb (JS.includes allowedUsernames username) then
              ret {| statusCode := 403; responseBody := "ERR: Invalid username";
                     responseHeaders := None |}
            else if negb (bool_decide (contentType file ∈ ALLOWED_MIME_TYPES)) then
              ret {| statusCode := 400;
                     responseBody :=
                       "ERR: Content type " +:+ contentType file +:+ " is not allowed";
                     responseHeaders := None |}
            else
              storeFile 201 file
        end
  end.

(** [error instanceof Error ? error.message : String(error)]. *)
Definition errorText (error : JS.Thrown) : string :=
  match error with
  | JS.JsError message => message
  | JS.JsValue asString => asString
  end.

(** [upload]: the [try] block under its [catch], lines 111-217. *)
Definition upload (event : RequestEvent) (st : State) : Response * State :=
  match upload_try event st with
  | (Normal response, st') => (response, st')
  | (Throw error, st') =>
      ({| statusCode := 500;
          responseBody := "ERR: Application error: " +:+ errorText error;
          responseHeaders := None |}, st')
  end.

(** ** The earlier revision of the handler, [src/index.ts] *)

(** Lines 90-104: [file] is built only when [event.body] is truthy. *)
Definition upload_file_legacy (event : RequestEvent) : Js (option InboundFile) :=
  match body event with
  | None => ret None
  | Some body =>
      if String.eqb body "" then ret None
      else
        let* filename :=
          match headers event !! "content-disposition" with
          | None => ret "unknown"
          | Some cd =>
              if String.eqb cd "" then ret "unknown"
              else
                match JS.split ("filename=" +:+ JS.dquote) cd !! 1%nat with
                | None => throw TypeError_split
                | Some rest => ret (default "" (JS.split JS.dquote rest !! 0%nat))
                end
          end in
        ret (Some {| filename := filename;
                     contentType :=
                       default "application/octet-stream"
                         (headers event !! "content-type");
                     content := decodeBody event body;
                     encoding := "utf-8" |})
  end.

Definition upload_try_legacy (event : RequestEvent) : Js Response :=
  let username := headers event !! "soju-username" in
  let* file := upload_file_legacy event in
  match username with
  | None =>
      ret {| statusCode := 400; responseBody := "ERR: Missing `username`";
             responseHeaders := None |}
  | Some username =>
      match file with
      | None =>
          ret {| statusCode := 400; responseBody := "ERR: Missing `file`";
                 responseHeaders := None |}
      | Some file =>
          let allowedUsernames :=
            JS.split "," (default "" (USERNAME_ALLOW_LIST env)) in
          if negb (JS.includes allowedUsernames username) then
            ret {| statusCode := 403; responseBody := "ERR: Invalid username";
                   responseHeaders := None |}
          else if negb (String.prefix "image/" (contentType file)) then
            ret {| statusCode := 400; responseBody := "ERR: Invalid file type";
                   responseHeaders := None |}
          else
            storeFile 200 file
      end
  end.

Definition upload_legacy (event : RequestEvent) (st : State) : Response * State :=
  match upload_try_legacy event st with
  | (Normal response, st') => (response, st')
  | (Throw error, st') =>
      ({| statusCode := 500;
          responseBody := "ERR: Application error: " +:+ errorText error;
          responseHeaders := None |}, st')
  end.

End Handler.

(** ** Observations on a run *)

Definition isPut (command : S3Command) : bool :=
  match command with
  | PutObjectCommand _ _ _ _ _ _ => true
  | HeadObjectCommand _ _ => false
  end.

(** The [PutObjectCommand]s among the requests sent. *)
Definition puts (st : State) : list S3Command := filter isPut (s3_sent st).

(** The four bytes the [i]-th call of [crypto.randomBytes(4)] delivers,
    counted from the entropy already used, as hex. *)
Definition suffix (env : Env) (used i : nat) : string :=
  JS.toString_hex (map (randomBytes_source env) (seq (used + 4 * i) 4)).

(** The [i]-th candidate key for [filename], the probe that asks for it,
    and the state once the first [k] probes are sent. *)
Definition candidate (env : Env) (filename : string) (used i : nat) : string :=
  withSuffix filename (suffix env used i).

Definition probe (env : Env) (filename : string) (used i : nat) : S3Command :=
  HeadObjectCommand (ExistingStorage_name env) (candidate env filename used i).

Definition afterProbes (env : Env) (filename : string) (st : State) (k : nat)
    : State :=
  {| entropy_used := entropy_used st + 4 * k;
     s3_sent := s3_sent st ++ map (probe env filename (entropy_used st)) (seq 0 k);
     console := console st |}.

(** The write [storeFile] sends for [file] under the key [key], the line
    it logs before, and the state after both. *)
Definition putFor (env : Env) (file : InboundFile) (key : string) : S3Command :=
  PutObjectCommand (ExistingStorage_name env) key
    (content file) (contentType file) (encoding file) "public-read".

Definition afterPut (env : Env) (file : InboundFile) (key : string) (st : State)
    : State :=
  {| entropy_used := entropy_used st;
     s3_sent := s3_sent st ++ [putFor env file key];
     console := console st ++
       ["Uploading " +:+ filename file +:+ " to "
        +:+ ExistingStorage_name env +:+ " as " +:+ key +:+ "..."] |}.

Definition ContentType_of (command : S3Command) : option string :=
  match command with
  | PutObjectCommand _ _ _ ct _ _ => Some ct
  | HeadObjectCommand _ _ => None
  end.

Definition response (code : Z) (text : string) : Response :=
  {| statusCode := code; responseBody := text; responseHeaders := None |}.

Definition created (code : Z) (url : string) : Response :=
  {| statusCode := code;
     responseBody := "SUCCESS: " +:+ url;
     responseHeaders := Some {[ "location" := url ]} |}.

(** A string of the pattern [[0-9a-f]{8}]. *)
Definition isLowerHex (c : ascii) : bool :=
  let n := N_of_ascii c in
  ((48 <=? n) && (n <=? 57) || (97 <=? n) && (n <=? 102))%N.

Definition isHex8 (s : string) : bool :=
  (String.length s =? 8)%nat && forallb isLowerHex (list_ascii_of_string s).

(** [c] occurs in [s]. *)
Fixpoint contains_char (c : ascii) (s : string) : bool :=
  match s with
  | EmptyString => false
  | String c' s' => Ascii.eqb c c' || contains_char c s'
  end.

(** [sub] occurs in [s] as a substring. *)
Fixpoint contains (sub s : string) : bool :=
  String.prefix sub s ||
  match s with
  | EmptyString => false
  | String _ s' => contains sub s'
  end.

(** The bucket a command names. *)
Definition Bucket_of (command : S3Command) : string :=
  match command with
  | HeadObjectCommand bucket _ => bucket
  | PutObjectCommand bucket _ _ _ _ _ => bucket
  end.

(** The runtime [H] with another sniffer. *)
Definition withSniffer (H : Runtime) (sniff : list byte -> option FileTypeResult)
    : Runtime :=
  {| utf8_encode := @utf8_encode H;
     base64_encode := @base64_encode H;
     base64_decode := @base64_decode H;
     fileTypeFromBuffer := sniff |}.

(** ** The exits of the handler *)

(** The ways out of [upload]: the rejections, which leave the state as it
    was, and the two ends of [storeFile]. *)
Inductive Exit `{Runtime} (env : Env) (ev : RequestEvent) (st : State)
    : Response -> State -> Prop :=
  | exit_missing_body :
      body ev = None ->
      Exit env ev st (response 400 "ERR: Missing body") st
  | exit_too_large b :
      body ev = Some b ->
      MAX_FILE_SIZE < byteLength (decodeBody ev b) ->
      Exit env ev st (response 413 "ERR: File too large") st
  | exit_filename_throws b :
      body ev = Some b ->
      byteLength (decodeBody ev b) <= MAX_FILE_SIZE ->
      resolveFile env ev (decodeBody ev b) st = (Throw TypeError_split, st) ->
      Exit env ev st
        (response 500 ("ERR: Application error: " +:+ errorText TypeError_split)) st
  | exit_missing_username b file :
      body ev = Some b ->
      byteLength (decodeBody ev b) <= MAX_FILE_SIZE ->
      resolveFile env ev (decodeBody ev b) st = (Normal file, st) ->
      headers ev !! "soju-username" = None ->
      Exit env ev st (response 400 "ERR: Missing `username`") st
  | exit_invalid_username b file u :
      body ev = Some b ->
      byteLength (decodeBody ev b) <= MAX_FILE_SIZE ->
      resolveFile env ev (decodeBody ev b) st = (Normal file, st) ->
      headers ev !! "soju-username" = Some u ->
      JS.includes (JS.split "," (default "" (USERNAME_ALLOW_LIST env))) u = false ->
      Exit env ev st (response 403 "ERR: Invalid username") st
  | exit_type_not_allowed b file u :
      body ev = Some b ->
      byteLength (decodeBody ev b) <= MAX_FILE_SIZE ->
      resolveFile env ev (decodeBody ev b) st = (Normal file, st) ->
      headers ev !! "soju-username" = Some u ->
      JS.includes (JS.split "," (default "" (USERNAME_ALLOW_LIST env))) u = true ->
      contentType file ∉ ALLOWED_MIME_TYPES ->
      Exit env ev st
        (response 400 ("ERR: Content type " +:+ contentType file +:+ " is not allowed")) st
  | exit_created b file u key k :
      body ev = Some b ->
      byteLength (decodeBody ev b) <= MAX_FILE_SIZE ->
      resolveFile env ev (decodeBody ev b) st = (Normal file, st) ->
      headers ev !! "soju-username" = Some u ->
      JS.includes (JS.split "," (default "" (USERNAME_ALLOW_LIST env))) u = true ->
      contentType file ∈ ALLOWED_MIME_TYPES ->
      (1 <= k <= 3)%nat ->
      uniqueFilenameForBucket env (filename file) (ExistingStorage_name env) 3 st
        = (Normal key, afterProbes env (filename file) st k) ->
      S3_send env (s3_sent (afterProbes env (filename file) st k)) (putFor env file key)
        = None ->
      Exit env ev st (created 201 (publicUrl env key))
        (afterPut env file key (afterProbes env (filename file) st k))
  | exit_write_throws b file u key k e :
      body ev = Some b ->
      byteLength (decodeBody ev b) <= MAX_FILE_SIZE ->
      resolveFile env ev (decodeBody ev b) st = (Normal file, st) ->
      headers ev !! "soju-username" = Some u ->
      JS.includes (JS.split "," (default "" (USERNAME_ALLOW_LIST env))) u = true ->
      contentType file ∈ ALLOWED_MIME_TYPES ->
      (1 <= k <= 3)%nat ->
      uniqueFilenameForBucket env (filename file) (ExistingStorage_name env) 3 st
        = (Normal key, afterProbes env (filename file) st k) ->
      S3_send env (s3_sent (afterProbes env (filename file) st k)) (putFor env file key)
        = Some e ->
      Exit env ev st (response 500 ("ERR: Application error: " +:+ errorText e))
        (afterPut env file key (afterProbes env (filename file) st k)).

(** ** The deployment, [sst.config.ts]

    The pure parts of the configuration: what [app] returns and what
    [run] hands to the [POST /upload] route.  [processEnv] is
    [process.env] at deploy time; [storageName] stands for
    [storage.name], which SST computes. *)

Module Config.

Record App := {
  name : string;
  removal : string;
  protect : bool;
  home : string;
  region : option string;
}.

(** [app(input)] of [src/sst.config.ts], with [stage] for [input.stage]. *)
Definition app (stage : string) : App :=
  {| name := "soju-upload-handler-aws";
     removal := if String.eqb stage "production" then "retain" else "remove";
     protect := JS.includes ["production"] stage;
     home := "aws";
     region := Some "eu-central-1" |}.

(** [app(input)] of the earlier configuration (kept after the handler in
    [src/index.ts]), which names no provider. *)
Definition app_initial (stage : string) : App :=
  {| name := "soju-upload-handler-aws";
     removal := if String.eqb stage "production" then "retain" else "remove";
     protect := JS.includes ["production"] stage;
     home := "aws";
     region := None |}.

(** A value used as a condition: [undefined] and the empty string are
    falsy. *)
Definition truthy (v : option string) : bool :=
  match v with
  | Some s => negb (String.eqb s "")
  | None => false
  end.

(** [{ ...acc, ...o }]: the properties of [o] are added to [acc] and
    replace those of the same name. *)
Definition spread (acc o : gmap string string) : gmap string string := o ∪ acc.

(** [{ KEY: process.env.KEY }] under a condition that made
    [process.env.KEY] truthy, [{}] otherwise. *)
Definition forwarded (condition : bool) (key : string)
    (processEnv : gmap string string) : gmap string string :=
  if condition
  then match processEnv !! key with
       | Some v => {[ key := v ]}
       | None => ∅
       end
  else ∅.

Definition bucketName (stage : string) : string :=
  if String.eqb stage "production"
  then "shottr-handler-prod"
  else "tmp-soju-upload-handler-aws-dev".

(** The [domain] argument of the API. *)
Definition apiDomain (stage : string) (processEnv : gmap string string)
    : option string :=
  if String.eqb stage "production" && truthy (processEnv !! "API_DOMAIN")
  then processEnv !! "API_DOMAIN"
  else None.

(** The [environment] of the route. *)
Definition environment (stage storageName : string)
    (processEnv : gmap string string) : gmap string string :=
  spread
    (spread {[ "BUCKET_NAME" := storageName ]}
       (forwarded (truthy (processEnv !! "USERNAME_ALLOW_LIST"))
          "USERNAME_ALLOW_LIST" processEnv))
    (forwarded
       (String.eqb stage "production" && truthy (processEnv !! "CDN_DOMAIN"))
       "CDN_DOMAIN" processEnv).

Record Permission := {
  actions : list string;
  resources : list string;
}.

(** The [permissions] of the route. *)
Definition permissions (stage : string) : list Permission :=
  [ {| actions := ["s3:PutObject"; "s3:PutObjectAcl"; "s3:GetObject"];
       resources := ["arn:aws:s3:::" +:+ bucketName stage;
                     "arn:aws:s3:::" +:+ bucketName stage +:+ "/*"] |} ].

(** The environment of the handler once deployed: the route's
    [environment] becomes the function's [process.env], and
    [Resource.ExistingStorage.name] is the [name] property of the linked
    [ExistingStorage], the name of the bucket that [BucketV2.get] looked
    up under [bucketName]. *)
Definition deployed (stage storageName : string) (processEnv : gmap string string)
    (now : Z) (source : nat -> byte)
    (s3 : list S3Command -> S3Command -> option JS.Thrown) : Env :=
  {| USERNAME_ALLOW_LIST := environment stage storageName processEnv !! "USERNAME_ALLOW_LIST";
     CDN_DOMAIN := environment stage storageName processEnv !! "CDN_DOMAIN";
     ExistingStorage_name := bucketName stage;
     Date_now := now;
     randomBytes_source := source;
     S3_send := s3 |}.

End Config.

(** ** A reference runtime, for running the handler on concrete requests

    An instance of [Runtime] to compute with: UTF-8 of code units below
    U+0100, RFC 4648 base64 (decoding skips what is outside the alphabet
    and stops at the first [=]), and a sniffer that knows the PNG, JPEG
    and GIF signatures.  The properties below hold for every instance;
    this one serves the concrete requests. *)

Module Reference.

Definition byte_of_N (n : N) : byte :=
  match Byte.of_N n with
  | Some b => b
  | None => x00
  end.

Fixpoint utf8 (s : string) : list byte :=
  match s with
  | EmptyString => []
  | String c s' =>
      let n := N_of_ascii c in
      if (n <? 128)%N then byte_of_N n :: utf8 s'
      else byte_of_N (192 + n / 64) :: byte_of_N (128 + n mod 64) :: utf8 s'
  end.

Definition alphabet : string :=
  "ABCDEFGHIJKLMNOPQRSTUVWXYZabcdefghijklmnopqrstuvwxyz0123456789+/".

Definition sextet_char (n : N) : ascii :=
  match String.get (N.to_nat n) alphabet with
  | Some c => c
  | None => "A"%char
  end.

Fixpoint encode (buf : list byte) : string :=
  match buf with
  | [] => EmptyString
  | [a] =>
      let n := Byte.to_N a in
      String (sextet_char (n / 4))
        (String (sextet_char (n mod 4 * 16)) "==")
  | [a; b] =>
      let n := (Byte.to_N a * 256 + Byte.to_N b)%N in
      String (sextet_char (n / 1024))
        (String (sextet_char (n / 16 mod 64))
           (String (sextet_char (n mod 16 * 4)) "="))
  | a :: b :: c :: rest =>
      let n := (Byte.to_N a * 65536 + Byte.to_N b * 256 + Byte.to_N c)%N in
      String (sextet_char (n / 262144))
        (String (sextet_char (n / 4096 mod 64))
           (String (sextet_char (n / 64 mod 64))
              (String (sextet_char (n mod 64)) (encode rest))))
  end.

Definition sextet_of (c : ascii) : option N :=
  let n := N_of_ascii c in
  if ((65 <=? n) && (n <=? 90))%N then Some (n - 65)%N
  else if ((97 <=? n) && (n <=? 122))%N then Some (n - 71)%N
  else if ((48 <=? n) && (n <=? 57))%N then Some (n + 4)%N
  else if ((n =? 43) || (n =? 45))%N then Some 62%N
  else if ((n =? 47) || (n =? 95))%N then Some 63%N
  else None.

Fixpoint sextets (s : string) : list N :=
  match s with
  | EmptyString => []
  | String c s' =>
      if Ascii.eqb c "="%char then []
      else match sextet_of c with
           | Some n => n :: sextets s'
           | None => sextets s'
           end
  end.

Fixpoint bytes_of_sextets (l : list N) : list byte :=
  match l with
  | a :: b :: c :: d :: rest =>
      let n := (a * 262144 + b * 4096 + c * 64 + d)%N in
      byte_of_N (n / 65536) :: byte_of_N (n / 256 mod 256)
        :: byte_of_N (n mod 256) :: bytes_of_sextets rest
  | [a; b; c] =>
      let n := (a * 4096 + b * 64 + c)%N in
      [byte_of_N (n / 1024); byte_of_N (n / 4 mod 256)]
  | [a; b] => [byte_of_N ((a * 64 + b) / 16)]
  | _ => []
  end.

Definition decode (s : string) : list byte := bytes_of_sextets (sextets s).

Definition png_signature : list byte := [x89; x50; x4e; x47; x0d; x0a; x1a; x0a].

Fixpoint starts_with (signature buf : list byte) : bool :=
  match signature, buf with
  | [], _ => true
  | x :: signature', y :: buf' => Byte.eqb x y && starts_with signature' buf'
  | _ :: _, [] => false
  end.

Definition sniff (buf : list byte) : option FileTypeResult :=
  if starts_with png_signature buf
  then Some {| mime := "image/png"; ext := "png" |}
  else if starts_with [xff; xd8; xff] buf
  then Some {| mime := "image/jpeg"; ext := "jpg" |}
  else if starts_with [x47; x49; x46; x38] buf
  then Some {| mime := "image/gif"; ext := "gif" |}
  else None.

#[export] Instance runtime : Runtime := {|
  utf8_encode := utf8;
  base64_encode := encode;
  base64_decode := decode;
  fileTypeFromBuffer := sniff;
|}.

End Reference.

(** ** Concrete environments and requests *)

Module Samples.

Import Reference.

(** A bucket with no object: every probe rejects with S3's [NotFound]. *)
Definition emptyBucket (sent : list S3Command) (command : S3Command)
    : option JS.Thrown :=
  match command with
  | HeadObjectCommand _ _ => Some (JS.JsError "NotFound")
  | PutObjectCommand _ _ _ _ _ _ => None
  end.

(** A bucket in which every key probed is taken. *)
Definition occupiedBucket (sent : list S3Command) (command : S3Command)
    : option JS.Thrown := None.

(** A bucket whose probes are refused, whatever the key. *)
Definition deniedProbe (sent : list S3Command) (command : S3Command)
    : option JS.Thrown :=
  match command with
  | HeadObjectCommand _ _ => Some (JS.JsError "Access Denied")
  | PutObjectCommand _ _ _ _ _ _ => None
  end.

(** A bucket with no object that refuses the write. *)
Definition failingWrite (sent : list S3Command) (command : S3Command)
    : option JS.Thrown :=
  match command with
  | HeadObjectCommand _ _ => Some (JS.JsError "NotFound")
  | PutObjectCommand _ _ _ _ _ _ => Some (JS.JsError "Access Denied")
  end.

Definition entropy (n : nat) : byte := byte_of_N (N.of_nat (17 * n + 3)).

Definition mkEnv (allowList cdn : option string)
    (s3 : list S3Command -> S3Command -> option JS.Thrown) : Env :=
  {| USERNAME_ALLOW_LIST := allowList;
     CDN_DOMAIN := cdn;
     ExistingStorage_name := "shottr-handler-prod";
     Date_now := 1700000000000;
     randomBytes_source := entropy;
     S3_send := s3 |}.

(** The eight bytes of the PNG signature, in base64. *)
Definition pngBody : string := "iVBORw0KGgo=".

Definition attachment (name : string) : string :=
  "attachment; filename=" +:+ JS.dquote +:+ name +:+ JS.dquote.

(** A request with the given headers and a small PNG body. *)
Definition request (hs : list (string * string)) : RequestEvent :=
  {| headers := list_to_map hs; body := Some pngBody; isBase64Encoded := true |}.

(** [n] times [AAAA], which decodes to [3 * n] zero bytes, then [tail]. *)
Fixpoint zerosThen (tail : string) (n : nat) : string :=
  match n with
  | O => tail
  | S n' => String "A" (String "A" (String "A" (String "A" (zerosThen tail n'))))
  end.

(** Bodies of 50 MiB + 1 byte and of exactly 50 MiB, base64-encoded. *)
Definition overLimitBody : string := zerosThen "" (N.to_nat 17476267).
Definition atLimitBody : string := zerosThen "AAA=" (N.to_nat 17476266).

Definition bodyRequest (hs : list (string * string)) (b : string) : RequestEvent :=
  {| headers := list_to_map hs; body := Some b; isBase64Encoded := true |}.

Definition jpegRequest : RequestEvent :=
  request [("soju-username", "alice"); ("content-type", "image/jpeg");
           ("content-disposition", attachment "cat.jpg")].

Definition jpegFile : InboundFile :=
  {| filename := "cat.jpg"; contentType := "image/jpeg";
     content := decode pngBody; encoding := "utf-8" |}.

Definition anonymousRequest : RequestEvent :=
  request [("content-type", "image/png"); ("content-disposition", attachment "a.png")].

Definition namedRequest (user : string) : RequestEvent :=
  request [("soju-username", user); ("content-type", "image/png");
           ("content-disposition", attachment "a.png")].

Definition pngFile : InboundFile :=
  {| filename := "a.png"; contentType := "image/png";
     content := decode pngBody; encoding := "utf-8" |}.

Definition octetRequest (b : string) : RequestEvent :=
  bodyRequest [("soju-username", "alice");
               ("content-type", "application/octet-stream")] b.

(** [hello], in base64: no signature the sniffer knows. *)
Definition helloBody : string := "aGVsbG8=".

Definition dispositionRequest (cd : string) : RequestEvent :=
  request [("soju-username", "alice"); ("content-type", "image/png");
           ("content-disposition", cd)].

Definition noBodyRequest : RequestEvent :=
  {| headers := list_to_map [("soju-username", "alice"); ("content-type", "image/png");
                             ("content-disposition", "attachment")];
     body := None; isBase64Encoded := false |}.

Definition production : Env := mkEnv (Some "alice,bob") (Some "cdn.example.org") emptyBucket.

(** A bucket that holds the keys [keys] and nothing else. *)
Definition bucketHolding (keys : list string) (sent : list S3Command)
    (command : S3Command) : option JS.Thrown :=
  match command with
  | HeadObjectCommand _ key =>
      if JS.includes keys key then None else Some (JS.JsError "NotFound")
  | PutObjectCommand _ _ _ _ _ _ => None
  end.

(** A request of [alice] that declares the content type [ct], names its
    file [name] and carries the small PNG body. *)
Definition declaredRequest (ct name : string) : RequestEvent :=
  request [("soju-username", "alice"); ("content-type", ct);
           ("content-disposition", attachment name)].

(** The same, without a [content-disposition] header. *)
Definition unnamedRequest (ct : string) : RequestEvent :=
  request [("soju-username", "alice"); ("content-type", ct)].

(** A complete PNG file of one transparent pixel, 70 bytes, in base64:
    the signature, then the chunks [IHDR], [IDAT] and [IEND], which
    [file-type] reads on to before it answers [image/png]. *)
Definition onePixelPng : string :=
  "iVBORw0KGgoAAAANSUhEUgAAAAEAAAABCAYAAAAfFcSJAAAADUlEQVR42mNkYPhfDwAChwGA60e6kgAAAABJRU5ErkJggg==".

(** [file] as the handler builds it for [octetRequest onePixelPng] at
    [Date.now() = 1700000000000]. *)
Definition sniffedPngFile : InboundFile :=
  {| filename := "upload-1700000000000.png"; contentType := "image/png";
     content := decode onePixelPng; encoding := "utf-8" |}.

(** A bucket that holds the keys [keys], read by a role without
    [s3:ListBucket]: the probe of a key that is not held is refused. *)
Definition heldElseDenied (keys : list string) (sent : list S3Command)
    (command : S3Command) : option JS.Thrown :=
  match command with
  | HeadObjectCommand _ key =>
      if JS.includes keys key then None else Some (JS.JsError "Access Denied")
  | PutObjectCommand _ _ _ _ _ _ => None
  end.

(** A deploying environment that sets [CDN_DOMAIN] alone. *)
Definition deployEnvironment : gmap string string :=
  list_to_map [("CDN_DOMAIN", "cdn.example.org")].

End Samples.

(** * Properties *)

(** ** The JavaScript functions on examples *)

Example split_dots : JS.split "." "a.b.c" = ["a"; "b"; "c"].
Proof. reflexivity. Qed.

Example split_no_sep : JS.split "." "README" = ["README"].
Proof. reflexivity. Qed.

Example split_empty_string : JS.split "," "" = [""].
Proof. reflexivity. Qed.

Example split_trailing : JS.split "." "abc." = ["abc"; ""].
Proof. reflexivity. Qed.

Example split_long_sep :
  JS.split ("filename=" +:+ JS.dquote)
    ("attachment; filename=" +:+ JS.dquote +:+ "x.png" +:+ JS.dquote)
  = ["attachment; "; "x.png" +:+ JS.dquote].
Proof. reflexivity. Qed.

Example slice_negative_end : JS.slice "photo.jpeg" 0 (-5) = "photo".
Proof. reflexivity. Qed.

Example slice_past_start : JS.slice "README" 0 (-7) = "".
Proof. reflexivity. Qed.

Example hex_example : JS.toString_hex [xde; xad; x0b; xef] = "dead0bef".
Proof. reflexivity. Qed.


(** ** Splitting at a dot, slicing, hex *)

Lemma split_scan_not_nil sep k s : JS.split_scan sep k s <> [].
Proof.
  revert k. induction s as [|c s IH]; intros k.
  - discriminate.
  - cbn [JS.split_scan]. destruct k; [|apply IH].
    destruct (String.prefix sep (String c s)); [discriminate|].
    destruct (JS.split_scan sep 0 s); discriminate.
Qed.

Lemma split_not_nil sep s : sep <> "" -> JS.split sep s <> [].
Proof.
  intros Hsep. unfold JS.split. destruct sep; [congruence|]. apply split_scan_not_nil.
Qed.

Section SingleUnitSeparator.

Variable d : ascii.

Lemma prefix_unit c s : String.prefix (String d "") (String c s) = Ascii.eqb d c.
Proof.
  cbn [String.prefix]. destruct (ascii_dec d c) as [<-|Hne].
  - rewrite Ascii.eqb_refl. destruct s; reflexivity.
  - symmetry. apply Ascii.eqb_neq. exact Hne.
Qed.

Lemma split_unit_none s :
  contains_char d s = false -> JS.split (String d "") s = [s].
Proof.
  unfold JS.split. induction s as [|c s IH]; [reflexivity|].
  cbn [contains_char]. intros Hc. apply orb_false_iff in Hc as [Hc1 Hc2].
  cbn [JS.split_scan]. rewrite prefix_unit, Hc1.
  rewrite (IH Hc2). reflexivity.
Qed.

Lemma split_unit_app stem rest :
  JS.split (String d "") (stem +:+ String d rest) =
  JS.split (String d "") stem ++ JS.split (String d "") rest.
Proof.
  unfold JS.split. induction stem as [|c stem IH].
  { change ("" +:+ String d rest) with (String d rest).
    cbn [JS.split_scan]. rewrite prefix_unit, Ascii.eqb_refl. reflexivity. }
  change (String c stem +:+ String d rest) with (String c (stem +:+ String d rest)).
  cbn [JS.split_scan]. rewrite !prefix_unit.
  change (String.length (String d "") - 1)%nat with 0%nat.
  rewrite IH.
  pose proof (split_scan_not_nil (String d "") 0 stem) as Hnn.
  destruct (Ascii.eqb d c); [reflexivity|].
  destruct (JS.split_scan (String d "") 0 stem) as [|h t]; [congruence|reflexivity].
Qed.

(** Splitting undoes joining: [names.join(d).split(d)] is [names], for
    a non-empty array of strings free of [d]. *)
Lemma split_unit_join names :
  names <> [] ->
  Forall (fun name => contains_char d name = false) names ->
  JS.split (String d "") (String.concat (String d "") names) = names.
Proof.
  induction names as [|name names IH]; [congruence|].
  intros _ Hall. inversion Hall as [|? ? Hname Hrest]; subst.
  destruct names as [|next names].
  - cbn [String.concat]. apply split_unit_none. exact Hname.
  - change (String.concat (String d "") (name :: next :: names))
      with (name +:+ String d (String.concat (String d "") (next :: names))).
    rewrite split_unit_app, (split_unit_none name Hname), IH by (discriminate || exact Hrest).
    reflexivity.
Qed.

End SingleUnitSeparator.

Lemma split_dot_none s :
  contains_char "." s = false -> JS.split "." s = [s].
Proof. apply split_unit_none. Qed.

Lemma split_dot_app stem rest :
  JS.split "." (stem +:+ "." +:+ rest) = JS.split "." stem ++ JS.split "." rest.
Proof. apply (split_unit_app "."%char). Qed.

Lemma pop_split_dotted stem ext :
  contains_char "." ext = false ->
  JS.pop (JS.split "." (stem +:+ "." +:+ ext)) = Some ext.
Proof.
  intros Hext. unfold JS.pop.
  rewrite split_dot_app, (split_dot_none ext Hext). apply last_snoc.
Qed.

Lemma append_cons c (a b : string) : String c a +:+ b = String c (a +:+ b).
Proof. reflexivity. Qed.

Lemma append_nil (b : string) : "" +:+ b = b.
Proof. reflexivity. Qed.

Lemma append_assoc (a b c : string) : (a +:+ b) +:+ c = a +:+ b +:+ c.
Proof.
  induction a as [|x a IH]; [reflexivity|].
  rewrite !append_cons. f_equal. exact IH.
Qed.

Lemma length_append (a b : string) :
  String.length (a +:+ b) = (String.length a + String.length b)%nat.
Proof. induction a as [|c a IH]; [reflexivity|].
  rewrite append_cons. cbn [String.length Nat.add]. f_equal. exact IH.
Qed.

Lemma substring_zero s : String.substring 0 0 s = "".
Proof. destruct s; reflexivity. Qed.

Lemma substring_prefix a b :
  String.substring 0 (String.length a) (a +:+ b) = a.
Proof.
  induction a as [|c a IH].
  - apply substring_zero.
  - rewrite append_cons. cbn [String.length String.substring]. rewrite IH. reflexivity.
Qed.

Lemma slice_to_negative s (k : nat) :
  JS.slice s 0 (- Z.of_nat k - 1) =
  String.substring 0 (String.length s - (k + 1)) s.
Proof.
  unfold JS.slice. cbv zeta.
  destruct (Z.ltb_spec (- Z.of_nat k - 1) 0) as [_|]; [|lia].
  destruct (Z.ltb_spec 0 0) as [|_]; [lia|].
  f_equal; lia.
Qed.

Lemma slice_stem stem ext :
  JS.slice (stem +:+ "." +:+ ext) 0 (- Z.of_nat (String.length ext) - 1) = stem.
Proof.
  rewrite slice_to_negative, !length_append. cbn [String.length].
  match goal with |- String.substring 0 ?n _ = _ =>
    replace n with (String.length stem) by lia end.
  apply substring_prefix.
Qed.

Lemma slice_whole s :
  JS.slice s 0 (- Z.of_nat (String.length s) - 1) = "".
Proof.
  rewrite slice_to_negative.
  replace (String.length s - (String.length s + 1))%nat with 0%nat by lia.
  apply substring_zero.
Qed.

Lemma withSuffix_dotted stem ext r :
  contains_char "." ext = false ->
  withSuffix (stem +:+ "." +:+ ext) r = stem +:+ "-" +:+ r +:+ "." +:+ ext.
Proof.
  intros Hext. unfold withSuffix.
  rewrite (pop_split_dotted _ _ Hext), slice_stem.
  cbv zeta. rewrite !append_assoc. reflexivity.
Qed.

Lemma withSuffix_no_dot name r :
  contains_char "." name = false ->
  withSuffix name r = "-" +:+ r +:+ "." +:+ name.
Proof.
  intros Hn. unfold withSuffix.
  rewrite (split_dot_none _ Hn). cbn [JS.pop last].
  rewrite slice_whole. cbv zeta. rewrite !append_assoc. reflexivity.
Qed.

Lemma hex_of_byte_lower b :
  forallb isLowerHex (list_ascii_of_string (JS.hex_of_byte b)) = true.
Proof. destruct b; vm_compute; reflexivity. Qed.

Lemma toString_hex_4 a b c d :
  isHex8 (JS.toString_hex [a; b; c; d]) = true.
Proof.
  unfold isHex8. cbn [JS.toString_hex JS.hex_of_byte String.append String.length Nat.eqb andb list_ascii_of_string forallb].
  pose proof (hex_of_byte_lower a) as Ha. pose proof (hex_of_byte_lower b) as Hb.
  pose proof (hex_of_byte_lower c) as Hc. pose proof (hex_of_byte_lower d) as Hd.
  unfold JS.hex_of_byte in *. cbn [list_ascii_of_string forallb] in *.
  repeat match goal with H : _ && _ = true |- _ => apply andb_prop in H as [? ?] end.
  repeat (apply andb_true_intro; split); assumption || reflexivity.
Qed.

Lemma suffix_hex8 env used i : isHex8 (suffix env used i) = true.
Proof. unfold suffix. cbn [seq map]. apply toString_hex_4. Qed.


(** ** The laws of the computations *)

Lemma bind_ret_l {A B} (a : A) (k : A -> Js B) st : bind (ret a) k st = k a st.
Proof. reflexivity. Qed.

Lemma bind_ret_r {A} (m : Js A) st : bind m ret st = m st.
Proof. unfold bind, ret. destruct (m st) as [[a|e] st']; reflexivity. Qed.

Lemma bind_assoc {A B C} (m : Js A) (k : A -> Js B) (l : B -> Js C) st :
  bind (bind m k) l st = bind m (fun a => bind (k a) l) st.
Proof. unfold bind. destruct (m st) as [[a|e] st']; reflexivity. Qed.

Lemma bind_throw {A B} (e : JS.Thrown) (k : A -> Js B) st :
  bind (throw e) k st = throw e st.
Proof. reflexivity. Qed.

Lemma try_catch_ret {A} (a : A) (h : JS.Thrown -> Js A) st :
  try_catch (ret a) h st = ret a st.
Proof. reflexivity. Qed.

Lemma try_catch_throw {A} (e : JS.Thrown) (h : JS.Thrown -> Js A) st :
  try_catch (throw e) h st = h e st.
Proof. reflexivity. Qed.

(** What is thrown under a [try] reaches its [catch], also from the end
    of a sequence: the shape of [return await ...] inside [try]. *)
Lemma try_catch_bind_throw {A B} (m : Js A) (e : JS.Thrown) (h : JS.Thrown -> Js B)
    a st st' :
  m st = (Normal a, st') ->
  try_catch (bind m (fun _ => throw e)) h st = h e st'.
Proof. intros Hm. unfold try_catch, bind, throw. rewrite Hm. reflexivity. Qed.

(** ** Key allocation and the stages of the handler *)

Section Allocation.
Context `{Runtime} (env : Env).

Lemma afterProbes_S fn st k :
  afterProbes env fn st (S k) =
  {| entropy_used := entropy_used (afterProbes env fn st k) + 4;
     s3_sent := s3_sent (afterProbes env fn st k) ++ [probe env fn (entropy_used st) k];
     console := console st |}.
Proof.
  unfold afterProbes. cbn [entropy_used s3_sent console].
  rewrite seq_S, map_app, app_assoc. cbn [map Nat.add]. f_equal. lia.
Qed.

Lemma draw_candidate fn st k :
  filenameWithRandomSuffix env fn (afterProbes env fn st k) =
  (Normal (candidate env fn (entropy_used st) k),
   {| entropy_used := entropy_used (afterProbes env fn st k) + 4;
      s3_sent := s3_sent (afterProbes env fn st k);
      console := console st |}).
Proof. reflexivity. Qed.

Lemma afterProbes_0 fn st : afterProbes env fn st 0 = st.
Proof.
  unfold afterProbes. destruct st. cbn. f_equal; [lia|apply app_nil_r].
Qed.

Lemma alloc_step fn st k n :
  uniqueFilenameForBucket env fn (ExistingStorage_name env) (S n) (afterProbes env fn st k) =
  match S3_send env (s3_sent (afterProbes env fn st k)) (probe env fn (entropy_used st) k) with
  | Some _ => (Normal (candidate env fn (entropy_used st) k), afterProbes env fn st (S k))
  | None =>
      match uniqueFilenameForBucket env fn (ExistingStorage_name env) n
              (afterProbes env fn st (S k)) with
      | (Normal key, st') => (Normal key, st')
      | (Throw _, st') => (Normal (candidate env fn (entropy_used st) k), st')
      end
  end.
Proof.
  cbn [uniqueFilenameForBucket].
  unfold bind at 1. rewrite draw_candidate.
  unfold try_catch, bind, send. cbn [s3_sent entropy_used console].
  rewrite (afterProbes_S fn st k). cbn [s3_sent entropy_used console].
  fold (probe env fn (entropy_used st) k).
  destruct (S3_send env _ _); reflexivity.
Qed.

Lemma alloc_3 fn st :
  uniqueFilenameForBucket env fn (ExistingStorage_name env) 3 st =
  match S3_send env (s3_sent st) (probe env fn (entropy_used st) 0) with
  | Some _ => (Normal (candidate env fn (entropy_used st) 0), afterProbes env fn st 1)
  | None =>
      match S3_send env (s3_sent (afterProbes env fn st 1))
              (probe env fn (entropy_used st) 1) with
      | Some _ => (Normal (candidate env fn (entropy_used st) 1), afterProbes env fn st 2)
      | None => (Normal (candidate env fn (entropy_used st) 2), afterProbes env fn st 3)
      end
  end.
Proof.
  rewrite <- (afterProbes_0 fn st) at 1.
  rewrite alloc_step, (afterProbes_0 fn st).
  destruct (S3_send env (s3_sent st) _); [reflexivity|].
  rewrite alloc_step.
  destruct (S3_send env (s3_sent (afterProbes env fn st 1)) _); [reflexivity|].
  rewrite alloc_step.
  destruct (S3_send env (s3_sent (afterProbes env fn st 2)) _); reflexivity.
Qed.

Lemma alloc_total fn st :
  exists key k,
    (1 <= k <= 3)%nat /\
    uniqueFilenameForBucket env fn (ExistingStorage_name env) 3 st =
      (Normal key, afterProbes env fn st k).
Proof.
  rewrite alloc_3.
  destruct (S3_send env (s3_sent st) _).
  { eexists _, 1%nat. split; [lia|reflexivity]. }
  destruct (S3_send env (s3_sent (afterProbes env fn st 1)) _).
  { eexists _, 2%nat. split; [lia|reflexivity]. }
  eexists _, 3%nat. split; [lia|reflexivity].
Qed.

Lemma alloc_candidate fn st :
  exists k,
    (1 <= k <= 3)%nat /\
    uniqueFilenameForBucket env fn (ExistingStorage_name env) 3 st =
      (Normal (candidate env fn (entropy_used st) (k - 1)), afterProbes env fn st k).
Proof.
  rewrite alloc_3.
  destruct (S3_send env (s3_sent st) _).
  { exists 1%nat. split; [lia|reflexivity]. }
  destruct (S3_send env (s3_sent (afterProbes env fn st 1)) _).
  { exists 2%nat. split; [lia|reflexivity]. }
  exists 3%nat. split; [lia|reflexivity].
Qed.

(** A probe that rejects ends the allocation, whichever probe it is:
    its candidate is the key. *)
Lemma alloc_rejected fn st j e :
  (j < 3)%nat ->
  (forall i, (i < j)%nat ->
     S3_send env (s3_sent (afterProbes env fn st i)) (probe env fn (entropy_used st) i)
       = None) ->
  S3_send env (s3_sent (afterProbes env fn st j)) (probe env fn (entropy_used st) j)
    = Some e ->
  uniqueFilenameForBucket env fn (ExistingStorage_name env) 3 st =
    (Normal (candidate env fn (entropy_used st) j), afterProbes env fn st (S j)).
Proof.
  intros Hj Hprev He. rewrite alloc_3.
  destruct j as [|[|[|j]]]; [| | |lia].
  - rewrite afterProbes_0 in He. rewrite He. reflexivity.
  - pose proof (Hprev 0%nat ltac:(lia)) as H0. rewrite afterProbes_0 in H0.
    rewrite H0, He. reflexivity.
  - pose proof (Hprev 0%nat ltac:(lia)) as H0. rewrite afterProbes_0 in H0.
    rewrite H0, (Hprev 1%nat ltac:(lia)). reflexivity.
Qed.

Lemma storeFile_after_alloc code file st key st1 :
  uniqueFilenameForBucket env (filename file) (ExistingStorage_name env) 3 st
    = (Normal key, st1) ->
  storeFile env code file st =
  match S3_send env (s3_sent st1) (putFor env file key) with
  | None => (Normal (created code (publicUrl env key)), afterPut env file key st1)
  | Some e => (Throw e, afterPut env file key st1)
  end.
Proof.
  intros Halloc. unfold storeFile. unfold bind at 1. rewrite Halloc.
  unfold bind, console_log, send, ret. cbn [s3_sent entropy_used console].
  fold (putFor env file key).
  destruct (S3_send env (s3_sent st1) (putFor env file key)); reflexivity.
Qed.

Lemma resolveFilename_state ev extension st :
  snd (resolveFilename env ev extension st) = st.
Proof.
  unfold resolveFilename.
  destruct (headers ev !! "content-disposition") as [cd|]; [|reflexivity].
  destruct (String.eqb cd ""); [reflexivity|].
  destruct (JS.split _ cd !! 1%nat); reflexivity.
Qed.

Lemma resolveFile_cases ev buf st :
  (exists name,
      resolveFile env ev buf st =
        (Normal {| filename := name;
                   contentType := fst (resolveContentType ev buf);
                   content := buf;
                   encoding := "utf-8" |}, st))
  \/ resolveFile env ev buf st = (Throw TypeError_split, st).
Proof.
  unfold resolveFile. destruct (resolveContentType ev buf) as [ct extension].
  unfold bind. unfold resolveFilename.
  destruct (headers ev !! "content-disposition") as [cd|];
    [|left; eexists; reflexivity].
  destruct (String.eqb cd ""); [left; eexists; reflexivity|].
  destruct (JS.split _ cd !! 1%nat); [left; eexists; reflexivity|right; reflexivity].
Qed.

Lemma upload_try_stores ev st b file u :
  body ev = Some b ->
  byteLength (decodeBody ev b) <= MAX_FILE_SIZE ->
  resolveFile env ev (decodeBody ev b) st = (Normal file, st) ->
  headers ev !! "soju-username" = Some u ->
  JS.includes (JS.split "," (default "" (USERNAME_ALLOW_LIST env))) u = true ->
  contentType file ∈ ALLOWED_MIME_TYPES ->
  upload_try env ev st = storeFile env 201 file st.
Proof.
  intros Hb Hsize Hfile Hu Hallow Hct. unfold upload_try. rewrite Hb.
  destruct (Z.ltb_spec MAX_FILE_SIZE (byteLength (decodeBody ev b))); [lia|].
  unfold bind at 1. rewrite Hfile, Hu, Hallow. cbn [negb].
  rewrite bool_decide_true by exact Hct. reflexivity.
Qed.

End Allocation.

Lemma upload_exit_eq `{Runtime} env ev st :
  exists r st', upload env ev st = (r, st') /\ Exit env ev st r st'.
Proof.
  unfold upload, upload_try.
  destruct (body ev) as [b|] eqn:Hb.
  2:{ eexists _, _. split; [reflexivity|]. apply exit_missing_body; exact Hb. }
  destruct (Z.ltb_spec MAX_FILE_SIZE (byteLength (decodeBody ev b))) as [Hbig|Hsize].
  { eexists _, _. split; [reflexivity|]. eapply exit_too_large; eassumption. }
  unfold bind at 1.
  destruct (resolveFile_cases env ev (decodeBody ev b) st) as [[name Hfile]|Hfile];
    rewrite Hfile.
  2:{ eexists _, _. split; [reflexivity|]. eapply exit_filename_throws; eassumption. }
  set (file := {| filename := name |}) in *.
  destruct (headers ev !! "soju-username") as [u|] eqn:Hu.
  2:{ eexists _, _. split; [reflexivity|]. eapply exit_missing_username; eassumption. }
  destruct (JS.includes _ u) eqn:Hallow; cbn [negb].
  2:{ eexists _, _. split; [reflexivity|]. eapply exit_invalid_username; eassumption. }
  destruct (decide (contentType file ∈ ALLOWED_MIME_TYPES)) as [Hct|Hct].
  2:{ rewrite bool_decide_false by exact Hct. cbn [negb].
      eexists _, _. split; [reflexivity|].
      eapply (exit_type_not_allowed env ev st b file); eassumption. }
  rewrite bool_decide_true by exact Hct. cbn [negb].
  destruct (alloc_total env (filename file) st) as (key & k & Hk & Halloc).
  rewrite (storeFile_after_alloc env 201 file st key _ Halloc).
  destruct (S3_send env _ (putFor env file key)) as [e|] eqn:Hput.
  - eexists _, _. split; [reflexivity|]. eapply exit_write_throws; eassumption.
  - eexists _, _. split; [reflexivity|]. eapply exit_created; eassumption.
Qed.

Lemma upload_exit `{Runtime} env ev st :
  Exit env ev st (fst (upload env ev st)) (snd (upload env ev st)).
Proof.
  destruct (upload_exit_eq env ev st) as (r & st' & -> & HE). exact HE.
Qed.


(** ** Gates *)

Lemma includes_In l x : JS.includes l x = true <-> In x l.
Proof.
  unfold JS.includes. rewrite existsb_exists. split.
  - intros (y & Hy & Heq). apply String.eqb_eq in Heq. subst. exact Hy.
  - intros Hx. exists x. split; [exact Hx|apply String.eqb_refl].
Qed.

Lemma includes_not_In l x : ~ In x l -> JS.includes l x = false.
Proof.
  intros Hx. destruct (JS.includes l x) eqn:E; [|reflexivity].
  apply includes_In in E. contradiction.
Qed.

Lemma split_without_separator sep s :
  sep <> "" -> contains sep s = false -> JS.split sep s = [s].
Proof.
  intros Hsep. unfold JS.split. destruct sep as [|a sep]; [congruence|].
  induction s as [|c s IH]; intros Hc; [reflexivity|].
  cbn [contains] in Hc. apply orb_false_iff in Hc as [Hp Hc].
  cbn [JS.split_scan]. rewrite Hp, (IH Hc). reflexivity.
Qed.

Lemma upload_of_storeFile `{Runtime} env ev st file key st1 :
  upload_try env ev st = storeFile env 201 file st ->
  uniqueFilenameForBucket env (filename file) (ExistingStorage_name env) 3 st
    = (Normal key, st1) ->
  upload env ev st =
  match S3_send env (s3_sent st1) (putFor env file key) with
  | None => (created 201 (publicUrl env key), afterPut env file key st1)
  | Some e =>
      (response 500 ("ERR: Application error: " +:+ errorText e),
       afterPut env file key st1)
  end.
Proof.
  intros Htry Halloc. unfold upload.
  rewrite Htry, (storeFile_after_alloc env 201 file st key st1 Halloc).
  destruct (S3_send env (s3_sent st1) (putFor env file key)); reflexivity.
Qed.

Lemma resolveFile_contentType `{Runtime} env ev buf st file st' :
  resolveFile env ev buf st = (Normal file, st') ->
  contentType file = fst (resolveContentType ev buf).
Proof.
  intros Hfile.
  destruct (resolveFile_cases env ev buf st) as [[name Hn]|Ht]; [|congruence].
  rewrite Hn in Hfile. injection Hfile as <- _. reflexivity.
Qed.

Lemma image_png_allowed : "image/png" ∈ ALLOWED_MIME_TYPES.
Proof. apply (bool_decide_unpack _). vm_compute. exact I. Qed.

Lemma storeFile_sends `{Runtime} env code file st :
  (length (s3_sent st) < length (s3_sent (snd (storeFile env code file st))))%nat.
Proof.
  destruct (alloc_total env (filename file) st) as (key & k & Hk & Halloc).
  rewrite (storeFile_after_alloc env code file st key _ Halloc).
  destruct (S3_send env _ (putFor env file key));
    cbn [snd afterPut afterProbes s3_sent]; rewrite !length_app; cbn [length]; lia.
Qed.

(** The content-type gate, for any resolved type: past the identity
    gate, the file is handed to [storeFile] exactly when its content
    type is in [ALLOWED_MIME_TYPES]. *)
Lemma content_type_gate `{Runtime} env ev st b file u :
  body ev = Some b ->
  byteLength (decodeBody ev b) <= MAX_FILE_SIZE ->
  resolveFile env ev (decodeBody ev b) st = (Normal file, st) ->
  headers ev !! "soju-username" = Some u ->
  JS.includes (JS.split "," (default "" (USERNAME_ALLOW_LIST env))) u = true ->
  contentType file ∈ ALLOWED_MIME_TYPES <->
  upload_try env ev st = storeFile env 201 file st.
Proof.
  intros Hb Hsize Hfile Hu Hallow. split.
  - intros Hct. exact (upload_try_stores env ev st b file u Hb Hsize Hfile Hu Hallow Hct).
  - intros Heq. destruct (decide (contentType file ∈ ALLOWED_MIME_TYPES)) as [Hct|Hct];
      [exact Hct|exfalso].
    pose proof (storeFile_sends env 201 file st) as Hlen. rewrite <- Heq in Hlen.
    unfold upload_try in Hlen. rewrite Hb in Hlen.
    destruct (Z.ltb_spec MAX_FILE_SIZE (byteLength (decodeBody ev b))); [lia|].
    unfold bind in Hlen. rewrite Hfile, Hu, Hallow in Hlen. cbn [negb] in Hlen.
    rewrite bool_decide_false in Hlen by exact Hct. cbn in Hlen. lia.
Qed.

Lemma upload_type_not_allowed `{Runtime} env ev st b file u :
  body ev = Some b ->
  byteLength (decodeBody ev b) <= MAX_FILE_SIZE ->
  resolveFile env ev (decodeBody ev b) st = (Normal file, st) ->
  headers ev !! "soju-username" = Some u ->
  JS.includes (JS.split "," (default "" (USERNAME_ALLOW_LIST env))) u = true ->
  contentType file ∉ ALLOWED_MIME_TYPES ->
  upload env ev st =
    (response 400 ("ERR: Content type " +:+ contentType file +:+ " is not allowed"), st).
Proof.
  intros Hb Hsize Hfile Hu Hallow Hct. unfold upload, upload_try. rewrite Hb.
  destruct (Z.ltb_spec MAX_FILE_SIZE (byteLength (decodeBody ev b))); [lia|].
  unfold bind. rewrite Hfile, Hu, Hallow. cbn [negb].
  rewrite bool_decide_false by exact Hct. reflexivity.
Qed.

(** The same gate on what S3 receives: past the identity gate, the
    probes are followed by the write of the file exactly when its
    content type is in [ALLOWED_MIME_TYPES]. *)
Lemma write_gate `{Runtime} env ev st b file u :
  body ev = Some b ->
  byteLength (decodeBody ev b) <= MAX_FILE_SIZE ->
  resolveFile env ev (decodeBody ev b) st = (Normal file, st) ->
  headers ev !! "soju-username" = Some u ->
  JS.includes (JS.split "," (default "" (USERNAME_ALLOW_LIST env))) u = true ->
  contentType file ∈ ALLOWED_MIME_TYPES <->
  exists k,
    s3_sent (snd (upload env ev st)) =
      s3_sent (afterProbes env (filename file) st k) ++
      [putFor env file (candidate env (filename file) (entropy_used st) (k - 1))].
Proof.
  intros Hb Hsize Hfile Hu Hallow. split.
  - intros Hct.
    pose proof (upload_try_stores env ev st b file u Hb Hsize Hfile Hu Hallow Hct) as Htry.
    destruct (alloc_candidate env (filename file) st) as (k & _ & Halloc).
    exists k. rewrite (upload_of_storeFile env ev st file _ _ Htry Halloc).
    destruct (S3_send env _ _); reflexivity.
  - intros [k Hsent].
    destruct (decide (contentType file ∈ ALLOWED_MIME_TYPES)) as [Hct|Hct];
      [exact Hct|exfalso].
    rewrite (upload_type_not_allowed env ev st b file u Hb Hsize Hfile Hu Hallow Hct)
      in Hsent.
    apply (f_equal (@length _)) in Hsent. cbn [snd afterProbes s3_sent] in Hsent.
    rewrite !length_app in Hsent. cbn [length] in Hsent. lia.
Qed.

Lemma upload_missing_username `{Runtime} env ev st b file :
  body ev = Some b ->
  byteLength (decodeBody ev b) <= MAX_FILE_SIZE ->
  resolveFile env ev (decodeBody ev b) st = (Normal file, st) ->
  headers ev !! "soju-username" = None ->
  upload env ev st = (response 400 "ERR: Missing `username`", st).
Proof.
  intros Hb Hsize Hfile Hu. unfold upload, upload_try. rewrite Hb.
  destruct (Z.ltb_spec MAX_FILE_SIZE (byteLength (decodeBody ev b))); [lia|].
  unfold bind. rewrite Hfile, Hu. reflexivity.
Qed.

Lemma upload_invalid_username `{Runtime} env ev st b file u :
  body ev = Some b ->
  byteLength (decodeBody ev b) <= MAX_FILE_SIZE ->
  resolveFile env ev (decodeBody ev b) st = (Normal file, st) ->
  headers ev !! "soju-username" = Some u ->
  JS.includes (JS.split "," (default "" (USERNAME_ALLOW_LIST env))) u = false ->
  upload env ev st = (response 403 "ERR: Invalid username", st).
Proof.
  intros Hb Hsize Hfile Hu Hnot. unfold upload, upload_try. rewrite Hb.
  destruct (Z.ltb_spec MAX_FILE_SIZE (byteLength (decodeBody ev b))); [lia|].
  unfold bind. rewrite Hfile, Hu, Hnot. reflexivity.
Qed.

(** ** The claims, on every environment and request *)

(** C1, as the code has it for a name without a dot.  [split(".")] of
    such a name is the one-element array holding the name, so [pop()]
    gives the whole name, never [undefined]: the name is taken for the
    extension, the stem is empty, and the key is
    [-<suffix>.<whole name>], where the claim has [<whole name>-<suffix>].
    The suffix is eight lower-case hex digits. *)
Theorem key_for_name_without_dot (env : Env) (name : string) (st : State) :
  contains_char "." name = false ->
  let randomString := suffix env (entropy_used st) 0 in
  fst (filenameWithRandomSuffix env name st) =
    Normal ("-" +:+ randomString +:+ "." +:+ name)
  /\ isHex8 randomString = true.
Proof.
  intros Hname randomString. split; [|apply suffix_hex8].
  cbn [filenameWithRandomSuffix]. unfold filenameWithRandomSuffix, bind, randomBytes, ret.
  cbn [fst]. f_equal. subst randomString. unfold suffix.
  rewrite Nat.mul_0_r, Nat.add_0_r. apply withSuffix_no_dot. exact Hname.
Qed.


(** C2: a request that passes every gate, for which a key is allocated
    and the write resolves, is answered 201 with body [SUCCESS: <url>]
    and a [location] header holding the same url,
    [https://<domain>/<key>]; the domain is [CDN_DOMAIN] when that is
    set and not empty, [<bucket>.s3.amazonaws.com] otherwise. *)
Theorem upload_created `{Runtime} (env : Env) (ev : RequestEvent) (st st1 : State)
    (b u key : string) (file : InboundFile) :
  body ev = Some b ->
  byteLength (decodeBody ev b) <= MAX_FILE_SIZE ->
  resolveFile env ev (decodeBody ev b) st = (Normal file, st) ->
  headers ev !! "soju-username" = Some u ->
  JS.includes (JS.split "," (default "" (USERNAME_ALLOW_LIST env))) u = true ->
  contentType file ∈ ALLOWED_MIME_TYPES ->
  uniqueFilenameForBucket env (filename file) (ExistingStorage_name env) 3 st
    = (Normal key, st1) ->
  S3_send env (s3_sent st1)
    (PutObjectCommand (ExistingStorage_name env) key (content file)
       (contentType file) (encoding file) "public-read") = None ->
  exists domain : string,
    let url := "https://" +:+ domain +:+ "/" +:+ key in
    fst (upload env ev st) =
      {| statusCode := 201;
         responseBody := "SUCCESS: " +:+ url;
         responseHeaders := Some {[ "location" := url ]} |}
    /\ (forall d, CDN_DOMAIN env = Some d -> d <> "" -> domain = d)
    /\ (CDN_DOMAIN env = None \/ CDN_DOMAIN env = Some "" ->
        domain = ExistingStorage_name env +:+ ".s3.amazonaws.com").
Proof.
  intros Hb Hsize Hfile Hu Hallow Hct Halloc Hput.
  unfold upload.
  rewrite (upload_try_stores env ev st b file u Hb Hsize Hfile Hu Hallow Hct).
  rewrite (storeFile_after_alloc env 201 file st key st1 Halloc).
  unfold putFor. rewrite Hput. cbn [fst]. unfold created, publicUrl.
  destruct (CDN_DOMAIN env) as [d|] eqn:Hcdn.
  - destruct (String.eqb_spec d "") as [->|Hne].
    + eexists. split; [reflexivity|]. split; [|reflexivity].
      intros d' Hd' Hne'. congruence.
    + exists d. split; [reflexivity|]. split.
      * intros d' Hd' _. congruence.
      * intros [Hnone|Hsome]; congruence.
  - eexists. split; [reflexivity|]. split; [|reflexivity].
    intros d' Hd' _. congruence.
Qed.


(** C3: with [content-type: application/octet-stream] the type is
    sniffed.  When the body sniffs to [image/png], the content type of
    the file is [image/png].  Past the identity gate the request is
    accepted exactly when [image/png] is in [ALLOWED_MIME_TYPES], where
    accepted means that the probes are followed by a [PutObjectCommand]
    carrying the decoded body with the content type [image/png]; and it
    is accepted: one to three probes are sent, then that write, under
    the candidate of the last probe, and the answer is 201 unless S3
    rejects the write.  No write the handler sends carries another
    content type.  When the sniffer finds nothing, the type is
    [application/octet-stream] and the extension [bin]. *)
Theorem octet_stream_is_sniffed `{Runtime} (env : Env) (ev : RequestEvent)
    (st : State) (b : string) :
  body ev = Some b ->
  byteLength (decodeBody ev b) <= MAX_FILE_SIZE ->
  headers ev !! "content-type" = Some "application/octet-stream" ->
  (forall e,
     fileTypeFromBuffer (decodeBody ev b) = Some {| mime := "image/png"; ext := e |} ->
     resolveContentType ev (decodeBody ev b) = ("image/png", e)
     /\ (forall u file,
           headers ev !! "soju-username" = Some u ->
           JS.includes (JS.split "," (default "" (USERNAME_ALLOW_LIST env))) u = true ->
           resolveFile env ev (decodeBody ev b) st = (Normal file, st) ->
           let key (k : nat) := candidate env (filename file) (entropy_used st) (k - 1) in
           let put (k : nat) :=
             PutObjectCommand (ExistingStorage_name env) (key k) (decodeBody ev b)
               "image/png" "utf-8" "public-read" in
           let stored (k : nat) :=
             s3_sent (snd (upload env ev st)) =
               s3_sent st ++
               map (probe env (filename file) (entropy_used st)) (seq 0 k) ++ [put k] in
           contentType file = "image/png"
           /\ ("image/png" ∈ ALLOWED_MIME_TYPES <->
               upload_try env ev st = storeFile env 201 file st)
           /\ ("image/png" ∈ ALLOWED_MIME_TYPES <-> exists k, stored k)
           /\ exists k,
                (1 <= k <= 3)%nat
                /\ stored k
                /\ fst (upload env ev st) =
                     match S3_send env (s3_sent (afterProbes env (filename file) st k))
                             (put k) with
                     | None => created 201 (publicUrl env (key k))
                     | Some error =>
                         response 500 ("ERR: Application error: " +:+ errorText error)
                     end)
     /\ exists new,
          s3_sent (snd (upload env ev st)) = s3_sent st ++ new /\
          Forall (fun command =>
                    forall ct, ContentType_of command = Some ct -> ct = "image/png")
            new)
  /\ (fileTypeFromBuffer (decodeBody ev b) = None ->
      resolveContentType ev (decodeBody ev b) = ("application/octet-stream", "bin")).
Proof.
  intros Hb Hsize Hct. split.
  - intros e Hsniff.
    assert (Hres : resolveContentType ev (decodeBody ev b) = ("image/png", e)).
    { unfold resolveContentType. rewrite Hct, Hsniff. reflexivity. }
    split; [exact Hres|]. split.
    + intros u file Hu Hallow Hfile. cbv zeta.
      pose proof (resolveFile_contentType env ev _ st file st Hfile) as Hfct.
      rewrite Hres in Hfct. cbn [fst] in Hfct.
      assert (Hput : forall key,
        putFor env file key =
        PutObjectCommand (ExistingStorage_name env) key (decodeBody ev b)
          "image/png" "utf-8" "public-read").
      { intros key. unfold putFor. rewrite Hfct.
        destruct (resolveFile_cases env ev (decodeBody ev b) st) as [[name Hn]|Ht];
          [|congruence].
        rewrite Hn in Hfile. injection Hfile as <-. reflexivity. }
      pose proof (write_gate env ev st b file u Hb Hsize Hfile Hu Hallow) as Hgate.
      rewrite Hfct in Hgate. setoid_rewrite Hput in Hgate.
      unfold afterProbes in Hgate at 1. cbn [s3_sent] in Hgate.
      setoid_rewrite <- app_assoc in Hgate.
      split_and!.
      * exact Hfct.
      * rewrite <- Hfct.
        exact (content_type_gate env ev st b file u Hb Hsize Hfile Hu Hallow).
      * exact Hgate.
      * assert (Hin : contentType file ∈ ALLOWED_MIME_TYPES)
          by (rewrite Hfct; exact image_png_allowed).
        pose proof (upload_try_stores env ev st b file u Hb Hsize Hfile Hu Hallow Hin)
          as Htry.
        destruct (alloc_candidate env (filename file) st) as (k & Hk & Halloc).
        exists k. rewrite (upload_of_storeFile env ev st file _ _ Htry Halloc), Hput.
        split; [exact Hk|].
        destruct (S3_send env _ _);
          (split; [cbn [snd afterPut afterProbes s3_sent];
                   rewrite Hput, <- app_assoc; reflexivity
                  |reflexivity]).
    + destruct (upload_exit_eq env ev st) as (r & st' & -> & HE). cbn [snd].
      destruct HE;
        try (exists []; split; [symmetry; apply app_nil_r|constructor]).
      all: match goal with
           | Hf : resolveFile _ _ _ _ = (Normal ?file, _) |- _ =>
               pose proof (resolveFile_contentType env ev _ st file st Hf) as Hfct
           end.
      all: assert (b0 = b) by congruence; subst b0.
      all: rewrite Hres in Hfct; cbn [fst] in Hfct.
      all: eexists; split;
        [cbn [afterPut afterProbes s3_sent]; rewrite <- app_assoc; reflexivity|].
      all: apply Forall_app; split;
        [apply Forall_forall; intros command Hin ct Hc;
         apply list_elem_of_fmap in Hin as (i & -> & _); discriminate Hc
        |constructor; [intros ct Hc; cbn in Hc; congruence|constructor]].
  - intros Hsniff. unfold resolveContentType. rewrite Hct, Hsniff. reflexivity.
Qed.


(** C4: a body that decodes to more than 50 MiB is answered 413,
    [ERR: File too large], whatever the headers are, before anything
    else is done; a body of exactly 50 MiB is not answered 413. *)
Theorem too_large `{Runtime} (env : Env) (ev : RequestEvent) (st : State) (b : string) :
  body ev = Some b ->
  (50 * 1024 * 1024 < byteLength (decodeBody ev b) ->
     upload env ev st =
       ({| statusCode := 413; responseBody := "ERR: File too large";
           responseHeaders := None |}, st))
  /\ (byteLength (decodeBody ev b) = 50 * 1024 * 1024 ->
     statusCode (fst (upload env ev st)) <> 413).
Proof.
  intros Hb. split.
  - intros Hbig. unfold upload, upload_try. rewrite Hb.
    destruct (Z.ltb_spec MAX_FILE_SIZE (byteLength (decodeBody ev b))) as [_|Hle];
      [reflexivity|].
    unfold MAX_FILE_SIZE in Hle. lia.
  - intros Heq. pose proof (upload_exit env ev st) as HE.
    inversion HE; cbn [statusCode response created]; try discriminate.
    assert (b0 = b) by congruence. subst b0.
    unfold MAX_FILE_SIZE in *. lia.
Qed.


(** C5: for a body within the limit whose file resolves, a request
    without [soju-username] is answered 400, [ERR: Missing `username`],
    and one whose username is not among the entries of the
    comma-separated [USERNAME_ALLOW_LIST] is answered 403,
    [ERR: Invalid username]. *)
Theorem identity_gate `{Runtime} (env : Env) (ev : RequestEvent) (st : State)
    (b : string) (file : InboundFile) :
  body ev = Some b ->
  byteLength (decodeBody ev b) <= MAX_FILE_SIZE ->
  resolveFile env ev (decodeBody ev b) st = (Normal file, st) ->
  (headers ev !! "soju-username" = None ->
     upload env ev st =
       ({| statusCode := 400; responseBody := "ERR: Missing `username`";
           responseHeaders := None |}, st))
  /\ (forall u,
        headers ev !! "soju-username" = Some u ->
        ~ In u (JS.split "," (default "" (USERNAME_ALLOW_LIST env))) ->
        upload env ev st =
          ({| statusCode := 403; responseBody := "ERR: Invalid username";
              responseHeaders := None |}, st)).
Proof.
  intros Hb Hsize Hfile. split.
  - intros Hu. exact (upload_missing_username env ev st b file Hb Hsize Hfile Hu).
  - intros u Hu Hnot.
    exact (upload_invalid_username env ev st b file u Hb Hsize Hfile Hu
             (includes_not_In _ _ Hnot)).
Qed.


(** C6, as the code has it for the empty username.  The allow-list that
    is unset or empty splits into the one-element array holding the
    empty string, so the empty username is included: the request is not
    answered 403 and the write is sent. *)
Theorem empty_allow_list_admits_empty_username `{Runtime} (env : Env)
    (ev : RequestEvent) (st : State) (b : string) (file : InboundFile) :
  USERNAME_ALLOW_LIST env = None \/ USERNAME_ALLOW_LIST env = Some "" ->
  body ev = Some b ->
  byteLength (decodeBody ev b) <= MAX_FILE_SIZE ->
  resolveFile env ev (decodeBody ev b) st = (Normal file, st) ->
  headers ev !! "soju-username" = Some "" ->
  contentType file ∈ ALLOWED_MIME_TYPES ->
  statusCode (fst (upload env ev st)) <> 403
  /\ exists key k,
       (1 <= k <= 3)%nat /\
       s3_sent (snd (upload env ev st)) =
         s3_sent (afterProbes env (filename file) st k) ++
         [PutObjectCommand (ExistingStorage_name env) key (content file)
            (contentType file) (encoding file) "public-read"].
Proof.
  intros Hlist Hb Hsize Hfile Hu Hct.
  assert (Hallow : JS.includes (JS.split "," (default "" (USERNAME_ALLOW_LIST env))) ""
                   = true).
  { destruct Hlist as [-> | ->]; reflexivity. }
  pose proof (upload_try_stores env ev st b file "" Hb Hsize Hfile Hu Hallow Hct) as Htry.
  destruct (alloc_total env (filename file) st) as (key & k & Hk & Halloc).
  rewrite (upload_of_storeFile env ev st file key _ Htry Halloc).
  destruct (S3_send env _ (putFor env file key)); cbn [fst snd statusCode response created];
    (split; [discriminate|exists key, k; split; [exact Hk|reflexivity]]).
Qed.


(** C7, as the code has it.  When every probe finds its key taken, three
    probes are sent, each for a fresh suffix; the error thrown once no
    attempt remains is caught by the third call's own [catch], so the
    allocator returns the third candidate, the object is written under
    that taken key, and the answer is 201 when the write resolves - not
    the 500 of the claim. *)
Theorem occupied_keys_are_overwritten `{Runtime} (env : Env) (ev : RequestEvent)
    (st : State) (b u : string) (file : InboundFile) :
  body ev = Some b ->
  byteLength (decodeBody ev b) <= MAX_FILE_SIZE ->
  resolveFile env ev (decodeBody ev b) st = (Normal file, st) ->
  headers ev !! "soju-username" = Some u ->
  JS.includes (JS.split "," (default "" (USERNAME_ALLOW_LIST env))) u = true ->
  contentType file ∈ ALLOWED_MIME_TYPES ->
  (forall sent key, S3_send env sent (HeadObjectCommand (ExistingStorage_name env) key) = None) ->
  let key i := candidate env (filename file) (entropy_used st) i in
  let write :=
    PutObjectCommand (ExistingStorage_name env) (key 2%nat) (content file)
      (contentType file) (encoding file) "public-read" in
  uniqueFilenameForBucket env (filename file) (ExistingStorage_name env) 3 st =
    (Normal (key 2%nat), afterProbes env (filename file) st 3)
  /\ s3_sent (snd (upload env ev st)) =
       s3_sent st ++
       [HeadObjectCommand (ExistingStorage_name env) (key 0%nat);
        HeadObjectCommand (ExistingStorage_name env) (key 1%nat);
        HeadObjectCommand (ExistingStorage_name env) (key 2%nat);
        write]
  /\ (S3_send env
        (s3_sent st ++
         [HeadObjectCommand (ExistingStorage_name env) (key 0%nat);
          HeadObjectCommand (ExistingStorage_name env) (key 1%nat);
          HeadObjectCommand (ExistingStorage_name env) (key 2%nat)]) write = None ->
        fst (upload env ev st) =
          {| statusCode := 201;
             responseBody := "SUCCESS: " +:+ publicUrl env (key 2%nat);
             responseHeaders := Some {[ "location" := publicUrl env (key 2%nat) ]} |}).
Proof.
  intros Hb Hsize Hfile Hu Hallow Hct Hocc key write.
  assert (Halloc :
    uniqueFilenameForBucket env (filename file) (ExistingStorage_name env) 3 st =
      (Normal (key 2%nat), afterProbes env (filename file) st 3)).
  { rewrite alloc_3. unfold probe. rewrite !Hocc. reflexivity. }
  pose proof (upload_try_stores env ev st b file u Hb Hsize Hfile Hu Hallow Hct) as Htry.
  rewrite (upload_of_storeFile env ev st file _ _ Htry Halloc).
  fold (putFor env file (key 2%nat)) in write. fold write.
  split; [exact Halloc|]. split.
  - destruct (S3_send env _ write); cbn [snd afterPut s3_sent afterProbes];
      rewrite <- app_assoc; reflexivity.
  - intros Hput.
    change (S3_send env (s3_sent (afterProbes env (filename file) st 3)) write = None)
      in Hput.
    rewrite Hput. reflexivity.
Qed.


(** C8, amended: a request answered 400, 403 or 413 sends nothing to S3;
    a request not answered 201 either sent no write, or its last request
    is the write, the write was rejected, and the answer is the 500 that
    embeds the rejection's message. *)
Theorem no_write_unless_the_write_fails `{Runtime} (env : Env) (ev : RequestEvent)
    (st : State) :
  let r := fst (upload env ev st) in
  let st' := snd (upload env ev st) in
  (statusCode r = 400 \/ statusCode r = 403 \/ statusCode r = 413 ->
     s3_sent st' = s3_sent st)
  /\ (statusCode r <> 201 ->
      puts st' = puts st
      \/ exists sent command e,
           s3_sent st' = sent ++ [command] /\ isPut command = true /\
           S3_send env sent command = Some e /\
           r = {| statusCode := 500;
                  responseBody := "ERR: Application error: " +:+ errorText e;
                  responseHeaders := None |}).
Proof.
  cbv zeta.
  destruct (upload_exit_eq env ev st) as (r & st' & -> & HE). cbn [fst snd].
  destruct HE; cbn [statusCode response created].
  1-6: split; [reflexivity || (intros [?|[?|?]]; discriminate) | left; reflexivity].
  - split; [intros [?|[?|?]]; discriminate|]. intros Hne. congruence.
  - split; [intros [?|[?|?]]; discriminate|]. intros _. right.
    eexists _, _, e. split; [reflexivity|]. split; [reflexivity|].
    split; [eassumption|reflexivity].
Qed.


(** C9, amended: whichever of the three probes rejects, and whatever it
    rejects with, the allocator takes the rejection for a free key: when
    the probes before the [j]-th resolved and the [j]-th rejects, its
    candidate is returned, no further probe is sent, the write under
    that candidate follows, and the answer is 201 once S3 takes the
    write; a rejection of the write is answered 500 with the error's
    message embedded. *)
Theorem probe_errors_swallowed_write_errors_reported `{Runtime} (env : Env)
    (ev : RequestEvent) (st : State) (b u : string) (file : InboundFile) :
  body ev = Some b ->
  byteLength (decodeBody ev b) <= MAX_FILE_SIZE ->
  resolveFile env ev (decodeBody ev b) st = (Normal file, st) ->
  headers ev !! "soju-username" = Some u ->
  JS.includes (JS.split "," (default "" (USERNAME_ALLOW_LIST env))) u = true ->
  contentType file ∈ ALLOWED_MIME_TYPES ->
  let name := filename file in
  let used := entropy_used st in
  let put (key : string) :=
    PutObjectCommand (ExistingStorage_name env) key (content file)
      (contentType file) (encoding file) "public-read" in
  (forall j e,
     (j < 3)%nat ->
     (forall i, (i < j)%nat ->
        S3_send env (s3_sent (afterProbes env name st i)) (probe env name used i) = None) ->
     S3_send env (s3_sent (afterProbes env name st j)) (probe env name used j) = Some e ->
     uniqueFilenameForBucket env name (ExistingStorage_name env) 3 st =
       (Normal (candidate env name used j), afterProbes env name st (S j))
     /\ s3_sent (snd (upload env ev st)) =
          s3_sent st ++
          map (probe env name used) (seq 0 (S j)) ++ [put (candidate env name used j)]
     /\ (S3_send env (s3_sent (afterProbes env name st (S j)))
           (put (candidate env name used j)) = None ->
         fst (upload env ev st) = created 201 (publicUrl env (candidate env name used j))))
  /\ (forall key st1 e,
        uniqueFilenameForBucket env name (ExistingStorage_name env) 3 st =
          (Normal key, st1) ->
        S3_send env (s3_sent st1) (put key) = Some e ->
        fst (upload env ev st) =
          {| statusCode := 500;
             responseBody := "ERR: Application error: " +:+ errorText e;
             responseHeaders := None |}).
Proof.
  intros Hb Hsize Hfile Hu Hallow Hct. cbv zeta.
  pose proof (upload_try_stores env ev st b file u Hb Hsize Hfile Hu Hallow Hct) as Htry.
  split.
  - intros j e Hj Hprev He.
    pose proof (alloc_rejected env (filename file) st j e Hj Hprev He) as Halloc.
    split; [exact Halloc|].
    rewrite (upload_of_storeFile env ev st file _ _ Htry Halloc).
    fold (putFor env file (candidate env (filename file) (entropy_used st) j)).
    split.
    + destruct (S3_send env _ (putFor env file _));
        cbn [snd afterPut afterProbes s3_sent]; rewrite <- app_assoc; reflexivity.
    + intros Hput. rewrite Hput. reflexivity.
  - intros key st1 e Halloc Hput.
    rewrite (upload_of_storeFile env ev st file _ _ Htry Halloc).
    unfold putFor. rewrite Hput. reflexivity.
Qed.


(** C10, amended: for a body within the limit, a [content-disposition]
    header that is not empty and lacks [filename=] followed by a double
    quote makes the extraction throw, and the answer is 500 with a body
    that begins [ERR: Application error:]; nothing is sent to S3. *)
Theorem disposition_without_filename_token `{Runtime} (env : Env) (ev : RequestEvent)
    (st : State) (b cd : string) :
  body ev = Some b ->
  byteLength (decodeBody ev b) <= MAX_FILE_SIZE ->
  headers ev !! "content-disposition" = Some cd ->
  cd <> "" ->
  contains ("filename=" +:+ JS.dquote) cd = false ->
  upload env ev st =
    ({| statusCode := 500;
        responseBody :=
          "ERR: Application error: " +:+
          "Cannot read properties of undefined (reading 'split')";
        responseHeaders := None |}, st)
  /\ String.prefix "ERR: Application error:"
       (responseBody (fst (upload env ev st))) = true.
Proof.
  intros Hb Hsize Hcd Hne Hno.
  assert (Hup : upload env ev st =
    ({| statusCode := 500;
        responseBody :=
          "ERR: Application error: " +:+
          "Cannot read properties of undefined (reading 'split')";
        responseHeaders := None |}, st)).
  { unfold upload, upload_try. rewrite Hb.
    destruct (Z.ltb_spec MAX_FILE_SIZE (byteLength (decodeBody ev b))); [lia|].
    unfold bind at 1. unfold resolveFile.
    destruct (resolveContentType ev (decodeBody ev b)) as [ct extension].
    unfold bind at 1. unfold resolveFilename. rewrite Hcd.
    destruct (String.eqb_spec cd ""); [contradiction|].
    rewrite (split_without_separator _ cd) by (discriminate || exact Hno).
    reflexivity. }
  split; [exact Hup|]. rewrite Hup. reflexivity.
Qed.


(** ** Further properties *)

(** A dotted name keeps its extension: the key of [<stem>.<ext>], with
    no dot in [<ext>], is [<stem>-<suffix>.<ext>]. *)
Theorem key_for_dotted_name (env : Env) (stem extension : string) (st : State) :
  contains_char "." extension = false ->
  let randomString := suffix env (entropy_used st) 0 in
  fst (filenameWithRandomSuffix env (stem +:+ "." +:+ extension) st) =
    Normal (stem +:+ "-" +:+ randomString +:+ "." +:+ extension)
  /\ isHex8 randomString = true.
Proof.
  intros Hext randomString. split; [|apply suffix_hex8].
  unfold filenameWithRandomSuffix, bind, randomBytes, ret.
  cbn [fst]. f_equal. subst randomString. unfold suffix.
  rewrite Nat.mul_0_r, Nat.add_0_r. apply withSuffix_dotted. exact Hext.
Qed.


(** With the allow-list unset or empty, every username but the empty one
    is answered 403. *)
Theorem empty_allow_list_rejects_named `{Runtime} (env : Env)
    (ev : RequestEvent) (st : State) (b u : string) (file : InboundFile) :
  USERNAME_ALLOW_LIST env = None \/ USERNAME_ALLOW_LIST env = Some "" ->
  body ev = Some b ->
  byteLength (decodeBody ev b) <= MAX_FILE_SIZE ->
  resolveFile env ev (decodeBody ev b) st = (Normal file, st) ->
  headers ev !! "soju-username" = Some u ->
  u <> "" ->
  upload env ev st =
    ({| statusCode := 403; responseBody := "ERR: Invalid username";
        responseHeaders := None |}, st).
Proof.
  intros Hlist Hb Hsize Hfile Hu Hne.
  apply (upload_invalid_username env ev st b file u Hb Hsize Hfile Hu).
  apply includes_not_In.
  destruct Hlist as [-> | ->]; cbn; intros [Heq|[]]; congruence.
Qed.


(** The allow-list read as the spec words it: when [USERNAME_ALLOW_LIST]
    is the usernames [names] joined by commas, a username outside
    [names] is answered 403. *)
Theorem unlisted_username_rejected `{Runtime} (env : Env) (ev : RequestEvent)
    (st : State) (b u : string) (file : InboundFile) (names : list string) :
  USERNAME_ALLOW_LIST env = Some (String.concat "," names) ->
  names <> [] ->
  Forall (fun name => contains_char "," name = false) names ->
  body ev = Some b ->
  byteLength (decodeBody ev b) <= MAX_FILE_SIZE ->
  resolveFile env ev (decodeBody ev b) st = (Normal file, st) ->
  headers ev !! "soju-username" = Some u ->
  ~ In u names ->
  upload env ev st =
    ({| statusCode := 403; responseBody := "ERR: Invalid username";
        responseHeaders := None |}, st).
Proof.
  intros Hlist Hne Hnames Hb Hsize Hfile Hu Hnot.
  apply (upload_invalid_username env ev st b file u Hb Hsize Hfile Hu).
  apply includes_not_In. rewrite Hlist.
  change (default "" (Some (String.concat "," names))) with (String.concat "," names).
  rewrite (split_unit_join ","%char names Hne Hnames). exact Hnot.
Qed.

(** The allocator never throws: after one to three probes it returns a
    key. *)
Theorem allocation_never_fails (env : Env) (name : string) (st : State) :
  exists key k,
    (1 <= k <= 3)%nat /\
    uniqueFilenameForBucket env name (ExistingStorage_name env) 3 st =
      (Normal key, afterProbes env name st k).
Proof. apply alloc_total. Qed.


(** The earlier revision answers 200 where the later one answers 201,
    with the same body and [location] header. *)
Theorem upload_legacy_created `{Runtime} (env : Env) (ev : RequestEvent) (st st1 : State)
    (u key : string) (file : InboundFile) :
  upload_file_legacy ev st = (Normal (Some file), st) ->
  headers ev !! "soju-username" = Some u ->
  JS.includes (JS.split "," (default "" (USERNAME_ALLOW_LIST env))) u = true ->
  String.prefix "image/" (contentType file) = true ->
  uniqueFilenameForBucket env (filename file) (ExistingStorage_name env) 3 st
    = (Normal key, st1) ->
  S3_send env (s3_sent st1)
    (PutObjectCommand (ExistingStorage_name env) key (content file)
       (contentType file) (encoding file) "public-read") = None ->
  fst (upload_legacy env ev st) =
    {| statusCode := 200;
       responseBody := "SUCCESS: " +:+ publicUrl env key;
       responseHeaders := Some {[ "location" := publicUrl env key ]} |}.
Proof.
  intros Hfile Hu Hallow Himage Halloc Hput.
  unfold upload_legacy, upload_try_legacy. unfold bind at 1.
  rewrite Hfile, Hu, Hallow, Himage. cbn [negb].
  rewrite (storeFile_after_alloc env 200 file st key st1 Halloc).
  unfold putFor. rewrite Hput. reflexivity.
Qed.

(** ** The claims on concrete requests *)

Import Reference Samples.

Ltac allowed := apply (bool_decide_unpack _); vm_compute; exact I.
Ltac small := vm_compute; discriminate.

(** [n] times [AAAA] decodes to [3 * n] bytes, without decoding. *)
Lemma decode_zerosThen_length tail n :
  length (decode (zerosThen tail n)) = (3 * n + length (decode tail))%nat.
Proof.
  induction n as [|n IH]; [reflexivity|].
  change (decode (zerosThen tail (S n)))
    with (x00 :: x00 :: x00 :: decode (zerosThen tail n)).
  cbn [length]. rewrite IH. lia.
Qed.

Lemma overLimit_length :
  byteLength (decode overLimitBody) = 50 * 1024 * 1024 + 1.
Proof.
  unfold byteLength, overLimitBody. rewrite decode_zerosThen_length.
  rewrite Nat2Z.inj_add, Nat2Z.inj_mul, N_nat_Z. reflexivity.
Qed.

Lemma atLimit_length :
  byteLength (decode atLimitBody) = 50 * 1024 * 1024.
Proof.
  unfold byteLength, atLimitBody. rewrite decode_zerosThen_length.
  rewrite Nat2Z.inj_add, Nat2Z.inj_mul, N_nat_Z. reflexivity.
Qed.

Lemma key_for_name_without_dot_witness :
  fst (filenameWithRandomSuffix production "README" initial) = Normal "-03142536.README"
  /\ isHex8 "03142536" = true.
Proof.
  apply (key_for_name_without_dot production "README" initial). reflexivity.
Defined.

Lemma upload_created_witness :
  exists domain : string,
    fst (upload (mkEnv (Some "alice,bob") (Some "cdn.example.org") emptyBucket)
           jpegRequest initial) =
      {| statusCode := 201;
         responseBody := "SUCCESS: " +:+ "https://" +:+ domain +:+ "/" +:+ "cat-03142536.jpg";
         responseHeaders :=
           Some {[ "location" := "https://" +:+ domain +:+ "/" +:+ "cat-03142536.jpg" ]} |}
    /\ (forall d, Some "cdn.example.org" = Some d -> d <> "" -> domain = d)
    /\ (Some "cdn.example.org" = None \/ Some "cdn.example.org" = Some "" ->
        domain = "shottr-handler-prod" +:+ ".s3.amazonaws.com").
Proof.
  apply (upload_created (H := runtime) (mkEnv (Some "alice,bob") (Some "cdn.example.org") emptyBucket)
           jpegRequest initial
           (afterProbes (mkEnv (Some "alice,bob") (Some "cdn.example.org") emptyBucket)
              "cat.jpg" initial 1)
           pngBody "alice" "cat-03142536.jpg"
           {| filename := "cat.jpg"; contentType := "image/jpeg";
              content := Reference.decode pngBody; encoding := "utf-8" |}).
  - reflexivity.
  - vm_compute. discriminate.
  - reflexivity.
  - reflexivity.
  - reflexivity.
  - apply (bool_decide_unpack _). vm_compute. exact I.
  - reflexivity.
  - reflexivity.
Defined.

Lemma octet_stream_is_sniffed_witness :
  fileTypeFromBuffer (decodeBody (octetRequest onePixelPng) onePixelPng)
    = Some {| mime := "image/png"; ext := "png" |}
  /\ (exists k,
     (1 <= k <= 3)%nat
     /\ s3_sent (snd (upload production (octetRequest onePixelPng) initial)) =
          map (probe production "upload-1700000000000.png" 0) (seq 0 k) ++
          [PutObjectCommand "shottr-handler-prod"
             (candidate production "upload-1700000000000.png" 0 (k - 1))
             (decodeBody (octetRequest onePixelPng) onePixelPng)
             "image/png" "utf-8" "public-read"]
     /\ fst (upload production (octetRequest onePixelPng) initial) =
          created 201
            (publicUrl production
               (candidate production "upload-1700000000000.png" 0 (k - 1))))
  /\ fileTypeFromBuffer (decodeBody (octetRequest helloBody) helloBody) = None
  /\ resolveContentType (octetRequest helloBody) (decode helloBody)
     = ("application/octet-stream", "bin").
Proof.
  split; [vm_compute; reflexivity|]. split; [|split; [vm_compute; reflexivity|]].
  - apply (proj2 (proj2 (proj2
             (proj1 (proj2
                (proj1 (octet_stream_is_sniffed (H := runtime) production
                          (octetRequest onePixelPng) initial onePixelPng
                          eq_refl ltac:(small) eq_refl)
                   "png" ltac:(vm_compute; reflexivity)))
                "alice" sniffedPngFile eq_refl eq_refl
                ltac:(vm_compute; reflexivity))))).
  - apply (proj2 (octet_stream_is_sniffed (H := runtime) production (octetRequest helloBody) initial
                    helloBody eq_refl ltac:(small) eq_refl)
             ltac:(vm_compute; reflexivity)).
Defined.

Lemma too_large_witness :
  upload (mkEnv (Some "alice") None emptyBucket)
    (bodyRequest [("content-type", "text/html")] overLimitBody) initial =
    ({| statusCode := 413; responseBody := "ERR: File too large";
        responseHeaders := None |}, initial)
  /\ statusCode
       (fst (upload (mkEnv (Some "alice") None emptyBucket)
               (bodyRequest [("soju-username", "alice"); ("content-type", "text/plain")]
                  atLimitBody) initial)) <> 413.
Proof.
  split.
  - apply (proj1 (too_large (H := runtime) (mkEnv (Some "alice") None emptyBucket)
                    (bodyRequest [("content-type", "text/html")] overLimitBody)
                    initial overLimitBody eq_refl)).
    change (50 * 1024 * 1024 < byteLength (decode overLimitBody)).
    rewrite overLimit_length. lia.
  - apply (proj2 (too_large (H := runtime) (mkEnv (Some "alice") None emptyBucket)
                    (bodyRequest [("soju-username", "alice"); ("content-type", "text/plain")]
                       atLimitBody)
                    initial atLimitBody eq_refl)).
    change (byteLength (decode atLimitBody) = 50 * 1024 * 1024).
    apply atLimit_length.
Defined.

Lemma identity_gate_witness :
  upload production anonymousRequest initial =
    ({| statusCode := 400; responseBody := "ERR: Missing `username`";
        responseHeaders := None |}, initial)
  /\ upload production (namedRequest "mallory") initial =
    ({| statusCode := 403; responseBody := "ERR: Invalid username";
        responseHeaders := None |}, initial).
Proof.
  split.
  - apply (proj1 (identity_gate (H := runtime) production anonymousRequest initial pngBody pngFile
                    eq_refl ltac:(small) eq_refl) eq_refl).
  - apply (proj2 (identity_gate (H := runtime) production (namedRequest "mallory") initial pngBody pngFile
                    eq_refl ltac:(small) eq_refl) "mallory" eq_refl).
    vm_compute. intros [?|[?|[]]]; discriminate.
Defined.

Lemma empty_allow_list_admits_empty_username_witness :
  statusCode (fst (upload (mkEnv None None emptyBucket) (namedRequest "") initial)) <> 403
  /\ exists key k,
       (1 <= k <= 3)%nat /\
       s3_sent (snd (upload (mkEnv None None emptyBucket) (namedRequest "") initial)) =
         s3_sent (afterProbes (mkEnv None None emptyBucket) "a.png" initial k) ++
         [PutObjectCommand "shottr-handler-prod" key (decode pngBody)
            "image/png" "utf-8" "public-read"].
Proof.
  apply (empty_allow_list_admits_empty_username (H := runtime) (mkEnv None None emptyBucket)
           (namedRequest "") initial pngBody pngFile
           (or_introl eq_refl) eq_refl ltac:(small) eq_refl eq_refl ltac:(allowed)).
Defined.

(** The same request, run: it is answered 201. *)
Lemma empty_allow_list_admits_empty_username_run :
  fst (upload (mkEnv None None emptyBucket) (namedRequest "") initial) =
    {| statusCode := 201;
       responseBody := "SUCCESS: https://shottr-handler-prod.s3.amazonaws.com/a-03142536.png";
       responseHeaders :=
         Some {[ "location" := "https://shottr-handler-prod.s3.amazonaws.com/a-03142536.png" ]} |}.
Proof. vm_compute. reflexivity. Qed.

Lemma occupied_keys_are_overwritten_witness :
  uniqueFilenameForBucket (mkEnv (Some "alice") None occupiedBucket) "a.png"
    "shottr-handler-prod" 3 initial =
    (Normal "a-8b9cadbe.png",
     afterProbes (mkEnv (Some "alice") None occupiedBucket) "a.png" initial 3)
  /\ s3_sent (snd (upload (mkEnv (Some "alice") None occupiedBucket)
                     (namedRequest "alice") initial)) =
       [] ++
       [HeadObjectCommand "shottr-handler-prod" "a-03142536.png";
        HeadObjectCommand "shottr-handler-prod" "a-4758697a.png";
        HeadObjectCommand "shottr-handler-prod" "a-8b9cadbe.png";
        PutObjectCommand "shottr-handler-prod" "a-8b9cadbe.png" (decode pngBody)
          "image/png" "utf-8" "public-read"]
  /\ fst (upload (mkEnv (Some "alice") None occupiedBucket) (namedRequest "alice") initial) =
       {| statusCode := 201;
          responseBody :=
            "SUCCESS: https://shottr-handler-prod.s3.amazonaws.com/a-8b9cadbe.png";
          responseHeaders :=
            Some {[ "location" :=
                      "https://shottr-handler-prod.s3.amazonaws.com/a-8b9cadbe.png" ]} |}.
Proof.
  pose proof (occupied_keys_are_overwritten (H := runtime) (mkEnv (Some "alice") None occupiedBucket)
                (namedRequest "alice") initial pngBody "alice" pngFile
                eq_refl ltac:(small) eq_refl eq_refl eq_refl ltac:(allowed)
                (fun _ _ => eq_refl)) as (Halloc & Hsent & Hcreated).
  split; [exact Halloc|]. split; [exact Hsent|]. exact (Hcreated eq_refl).
Defined.

(** Against C8 as stated: the write is sent, S3 refuses it, and the
    answer is 500. *)
Lemma failed_write_was_invoked :
  statusCode (fst (upload (mkEnv (Some "alice") None failingWrite)
                     (namedRequest "alice") initial)) = 500
  /\ responseBody (fst (upload (mkEnv (Some "alice") None failingWrite)
                     (namedRequest "alice") initial))
     = "ERR: Application error: Access Denied"
  /\ puts (snd (upload (mkEnv (Some "alice") None failingWrite)
                  (namedRequest "alice") initial)) =
     [PutObjectCommand "shottr-handler-prod" "a-03142536.png" (decode pngBody)
        "image/png" "utf-8" "public-read"].
Proof. vm_compute. repeat split; reflexivity. Qed.

(** Against C9 as stated: the probe is refused with [Access Denied], not
    [NotFound], and the answer is 201. *)
Lemma denied_probe_is_swallowed :
  S3_send (mkEnv (Some "alice") None deniedProbe) []
    (HeadObjectCommand "shottr-handler-prod" "a-03142536.png")
    = Some (JS.JsError "Access Denied")
  /\ upload (mkEnv (Some "alice") None deniedProbe) (namedRequest "alice") initial =
     ({| statusCode := 201;
         responseBody :=
           "SUCCESS: https://shottr-handler-prod.s3.amazonaws.com/a-03142536.png";
         responseHeaders :=
           Some {[ "location" :=
                     "https://shottr-handler-prod.s3.amazonaws.com/a-03142536.png" ]} |},
      {| entropy_used := 4;
         s3_sent :=
           [HeadObjectCommand "shottr-handler-prod" "a-03142536.png";
            PutObjectCommand "shottr-handler-prod" "a-03142536.png" (decode pngBody)
              "image/png" "utf-8" "public-read"];
         console := ["Uploading a.png to shottr-handler-prod as a-03142536.png..."] |}).
Proof. split; vm_compute; reflexivity. Qed.

Lemma probe_errors_swallowed_write_errors_reported_witness :
  (uniqueFilenameForBucket (mkEnv (Some "alice") None deniedProbe) "a.png"
     "shottr-handler-prod" 3 initial =
     (Normal "a-03142536.png",
      afterProbes (mkEnv (Some "alice") None deniedProbe) "a.png" initial 1)
   /\ s3_sent (snd (upload (mkEnv (Some "alice") None deniedProbe)
                      (namedRequest "alice") initial)) =
        [HeadObjectCommand "shottr-handler-prod" "a-03142536.png";
         PutObjectCommand "shottr-handler-prod" "a-03142536.png" (decode pngBody)
           "image/png" "utf-8" "public-read"]
   /\ fst (upload (mkEnv (Some "alice") None deniedProbe) (namedRequest "alice") initial) =
        created 201 "https://shottr-handler-prod.s3.amazonaws.com/a-03142536.png")
  /\ (uniqueFilenameForBucket
     (mkEnv (Some "alice") None (heldElseDenied ["a-03142536.png"])) "a.png"
     "shottr-handler-prod" 3 initial =
     (Normal "a-4758697a.png",
      afterProbes (mkEnv (Some "alice") None (heldElseDenied ["a-03142536.png"]))
        "a.png" initial 2)
   /\ s3_sent (snd (upload (mkEnv (Some "alice") None (heldElseDenied ["a-03142536.png"]))
                      (namedRequest "alice") initial)) =
        [HeadObjectCommand "shottr-handler-prod" "a-03142536.png";
         HeadObjectCommand "shottr-handler-prod" "a-4758697a.png";
         PutObjectCommand "shottr-handler-prod" "a-4758697a.png" (decode pngBody)
           "image/png" "utf-8" "public-read"]
   /\ fst (upload (mkEnv (Some "alice") None (heldElseDenied ["a-03142536.png"]))
             (namedRequest "alice") initial) =
        created 201 "https://shottr-handler-prod.s3.amazonaws.com/a-4758697a.png")
  /\ (uniqueFilenameForBucket
        (mkEnv (Some "alice") None
           (heldElseDenied ["a-03142536.png"; "a-4758697a.png"])) "a.png"
        "shottr-handler-prod" 3 initial =
        (Normal "a-8b9cadbe.png",
         afterProbes
           (mkEnv (Some "alice") None
              (heldElseDenied ["a-03142536.png"; "a-4758697a.png"]))
           "a.png" initial 3)
      /\ s3_sent (snd (upload
                         (mkEnv (Some "alice") None
                            (heldElseDenied ["a-03142536.png"; "a-4758697a.png"]))
                         (namedRequest "alice") initial)) =
           [HeadObjectCommand "shottr-handler-prod" "a-03142536.png";
            HeadObjectCommand "shottr-handler-prod" "a-4758697a.png";
            HeadObjectCommand "shottr-handler-prod" "a-8b9cadbe.png";
            PutObjectCommand "shottr-handler-prod" "a-8b9cadbe.png" (decode pngBody)
              "image/png" "utf-8" "public-read"]
      /\ fst (upload
                (mkEnv (Some "alice") None
                   (heldElseDenied ["a-03142536.png"; "a-4758697a.png"]))
                (namedRequest "alice") initial) =
           created 201 "https://shottr-handler-prod.s3.amazonaws.com/a-8b9cadbe.png")
  /\ fst (upload (mkEnv (Some "alice") None failingWrite) (namedRequest "alice") initial) =
       {| statusCode := 500;
          responseBody := "ERR: Application error: " +:+ "Access Denied";
          responseHeaders := None |}.
Proof.
  split; [|split; [|split]].
  - destruct (proj1 (probe_errors_swallowed_write_errors_reported (H := runtime)
                       (mkEnv (Some "alice") None deniedProbe)
                       (namedRequest "alice") initial pngBody "alice" pngFile
                       eq_refl ltac:(small) eq_refl eq_refl eq_refl ltac:(allowed))
                0%nat (JS.JsError "Access Denied") ltac:(lia)
                ltac:(intros i Hi; lia) eq_refl)
      as (Halloc & Hsent & Hanswer).
    split; [exact Halloc|]. split; [exact Hsent|exact (Hanswer eq_refl)].
  - destruct (proj1 (probe_errors_swallowed_write_errors_reported (H := runtime)
                       (mkEnv (Some "alice") None (heldElseDenied ["a-03142536.png"]))
                       (namedRequest "alice") initial pngBody "alice" pngFile
                       eq_refl ltac:(small) eq_refl eq_refl eq_refl ltac:(allowed))
                1%nat (JS.JsError "Access Denied") ltac:(lia)
                ltac:(intros [|i] Hi; [reflexivity|lia]) eq_refl)
      as (Halloc & Hsent & Hanswer).
    split; [exact Halloc|]. split; [exact Hsent|exact (Hanswer eq_refl)].
  - destruct (proj1 (probe_errors_swallowed_write_errors_reported (H := runtime)
                       (mkEnv (Some "alice") None
                          (heldElseDenied ["a-03142536.png"; "a-4758697a.png"]))
                       (namedRequest "alice") initial pngBody "alice" pngFile
                       eq_refl ltac:(small) eq_refl eq_refl eq_refl ltac:(allowed))
                2%nat (JS.JsError "Access Denied") ltac:(lia)
                ltac:(intros [|[|i]] Hi; [reflexivity|reflexivity|lia]) eq_refl)
      as (Halloc & Hsent & Hanswer).
    split; [exact Halloc|]. split; [exact Hsent|exact (Hanswer eq_refl)].
  - apply (proj2 (probe_errors_swallowed_write_errors_reported (H := runtime)
                    (mkEnv (Some "alice") None failingWrite) (namedRequest "alice") initial
                    pngBody "alice" pngFile
                    eq_refl ltac:(small) eq_refl eq_refl eq_refl ltac:(allowed))
             "a-03142536.png"
             (afterProbes (mkEnv (Some "alice") None failingWrite) "a.png" initial 1)
             (JS.JsError "Access Denied") eq_refl eq_refl).
Defined.

(** Against C10 as stated: with the header present and no body the
    answer is 400, and with the header present and empty a filename is
    synthesized and the answer is 201. *)
Lemma disposition_gates_and_empty_header :
  headers noBodyRequest !! "content-disposition" = Some "attachment"
  /\ upload production noBodyRequest initial =
     ({| statusCode := 400; responseBody := "ERR: Missing body";
         responseHeaders := None |}, initial)
  /\ headers (dispositionRequest "") !! "content-disposition" = Some ""
  /\ upload production (dispositionRequest "") initial =
     ({| statusCode := 201;
         responseBody := "SUCCESS: https://cdn.example.org/upload-1700000000000-03142536.png";
         responseHeaders :=
           Some {[ "location" :=
                     "https://cdn.example.org/upload-1700000000000-03142536.png" ]} |},
      {| entropy_used := 4;
         s3_sent :=
           [HeadObjectCommand "shottr-handler-prod" "upload-1700000000000-03142536.png";
            PutObjectCommand "shottr-handler-prod" "upload-1700000000000-03142536.png"
              (decode pngBody) "image/png" "utf-8" "public-read"];
         console :=
           ["Uploading upload-1700000000000.png to shottr-handler-prod as upload-1700000000000-03142536.png..."] |}).
Proof. repeat split; vm_compute; reflexivity. Qed.

Lemma disposition_without_filename_token_witness :
  upload production (dispositionRequest "attachment") initial =
    ({| statusCode := 500;
        responseBody :=
          "ERR: Application error: " +:+
          "Cannot read properties of undefined (reading 'split')";
        responseHeaders := None |}, initial)
  /\ String.prefix "ERR: Application error:"
       (responseBody (fst (upload production (dispositionRequest "attachment") initial)))
     = true.
Proof.
  apply (disposition_without_filename_token (H := runtime) production (dispositionRequest "attachment")
           initial pngBody "attachment" eq_refl ltac:(small) eq_refl
           ltac:(discriminate) eq_refl).
Defined.

Lemma key_for_dotted_name_witness :
  fst (filenameWithRandomSuffix production "holiday.2024.jpeg" initial) =
    Normal "holiday.2024-03142536.jpeg"
  /\ isHex8 "03142536" = true.
Proof.
  apply (key_for_dotted_name production "holiday.2024" "jpeg" initial). reflexivity.
Defined.

Lemma empty_allow_list_rejects_named_witness :
  upload (mkEnv None None emptyBucket) (namedRequest "alice") initial =
    ({| statusCode := 403; responseBody := "ERR: Invalid username";
        responseHeaders := None |}, initial).
Proof.
  apply (empty_allow_list_rejects_named (H := runtime) (mkEnv None None emptyBucket)
           (namedRequest "alice") initial pngBody "alice" pngFile
           (or_introl eq_refl) eq_refl ltac:(small) eq_refl eq_refl ltac:(discriminate)).
Defined.

Lemma upload_legacy_created_witness :
  fst (upload_legacy production jpegRequest initial) =
    {| statusCode := 200;
       responseBody := "SUCCESS: " +:+ publicUrl production "cat-03142536.jpg";
       responseHeaders := Some {[ "location" := publicUrl production "cat-03142536.jpg" ]} |}.
Proof.
  apply (upload_legacy_created (H := runtime) production jpegRequest initial
           (afterProbes production "cat.jpg" initial 1) "alice" "cat-03142536.jpg" jpegFile
           eq_refl eq_refl eq_refl eq_refl eq_refl eq_refl).
Defined.

Lemma unlisted_username_rejected_witness :
  upload production (namedRequest "mallory") initial =
    ({| statusCode := 403; responseBody := "ERR: Invalid username";
        responseHeaders := None |}, initial).
Proof.
  apply (unlisted_username_rejected (H := runtime) production (namedRequest "mallory")
           initial pngBody "mallory" pngFile ["alice"; "bob"]
           eq_refl ltac:(discriminate)
           ltac:(repeat constructor) eq_refl ltac:(small) eq_refl eq_refl).
  intros [?|[?|[]]]; discriminate.
Defined.

(** The request of C3, run on a complete PNG file: the octet-stream
    upload is stored as [image/png]. *)
Example octet_stream_png_run :
  fileTypeFromBuffer (decode onePixelPng) = Some {| mime := "image/png"; ext := "png" |}
  /\ upload production (octetRequest onePixelPng) initial =
    ({| statusCode := 201;
        responseBody := "SUCCESS: https://cdn.example.org/upload-1700000000000-03142536.png";
        responseHeaders :=
          Some {[ "location" :=
                    "https://cdn.example.org/upload-1700000000000-03142536.png" ]} |},
     {| entropy_used := 4;
        s3_sent :=
          [HeadObjectCommand "shottr-handler-prod" "upload-1700000000000-03142536.png";
           PutObjectCommand "shottr-handler-prod" "upload-1700000000000-03142536.png"
             (decode onePixelPng) "image/png" "utf-8" "public-read"];
        console :=
          ["Uploading upload-1700000000000.png to shottr-handler-prod as upload-1700000000000-03142536.png..."] |}).
Proof. split; vm_compute; reflexivity. Qed.

(** * The rest of the code *)

(** ** What an invocation sends and answers *)

Lemma alloc_last_probed env fn st key k :
  uniqueFilenameForBucket env fn (ExistingStorage_name env) 3 st =
    (Normal key, afterProbes env fn st k) ->
  (1 <= k <= 3)%nat /\ key = candidate env fn (entropy_used st) (k - 1).
Proof.
  rewrite alloc_3. intros Heq.
  assert (Hk : forall j, afterProbes env fn st j = afterProbes env fn st k -> j = k).
  { intros j Hj. apply (f_equal entropy_used) in Hj. cbn in Hj. lia. }
  destruct (S3_send env (s3_sent st) _);
    [|destruct (S3_send env (s3_sent (afterProbes env fn st 1)) _)].
  all: pose proof (f_equal snd Heq) as Hst; cbn [snd] in Hst; apply Hk in Hst as <-.
  all: pose proof (f_equal fst Heq) as Hkey; cbn [fst] in Hkey.
  all: injection Hkey as <-; split; [lia|reflexivity].
Qed.

Lemma resolveFile_content `{Runtime} env ev buf st file st' :
  resolveFile env ev buf st = (Normal file, st') ->
  content file = buf /\ encoding file = "utf-8".
Proof.
  intros Hfile.
  destruct (resolveFile_cases env ev buf st) as [[name Hn]|Ht]; [|congruence].
  rewrite Hn in Hfile. injection Hfile as <- _. split; reflexivity.
Qed.

(** X6: every invocation answers 201, 400, 403, 413 or 500, and what it
    sends to S3 is at most three probes, each for a fresh four bytes of
    entropy, followed by at most one write - a write exactly when there
    was a probe. *)
Theorem upload_io_shape `{Runtime} (env : Env) (ev : RequestEvent) (st : State) :
  let r := fst (upload env ev st) in
  let st' := snd (upload env ev st) in
  (statusCode r = 201 \/ statusCode r = 400 \/ statusCode r = 403 \/
   statusCode r = 413 \/ statusCode r = 500)
  /\ exists (keys : list string) (writes : list S3Command),
       (length keys <= 3)%nat /\ (length writes <= 1)%nat /\
       (keys = [] <-> writes = []) /\
       Forall (fun w => isPut w = true) writes /\
       s3_sent st' =
         s3_sent st ++ map (HeadObjectCommand (ExistingStorage_name env)) keys ++ writes /\
       entropy_used st' = (entropy_used st + 4 * length keys)%nat.
Proof.
  cbv zeta.
  destruct (upload_exit_eq env ev st) as (r & st' & -> & HE). cbn [fst snd].
  destruct HE as [| | | | | |? ? ? key k|? ? ? key k ?].
  1-6: split; [cbn [statusCode response]; tauto|]; exists [], [];
    split_and!; [cbn [length]; lia|cbn [length]; lia|tauto|constructor| |];
    cbn [map length]; rewrite ?app_nil_r, ?Nat.add_0_r; reflexivity.
  all: split; [cbn [statusCode response created]; tauto|].
  all: exists (map (candidate env (filename file) (entropy_used st)) (seq 0 k)),
         [putFor env file key].
  all: rewrite length_map, length_seq.
  all: split_and!;
    [lia
    |cbn [length]; lia
    |split; [intros Hnil; destruct k; [lia|discriminate Hnil]|intros Hnil; discriminate Hnil]
    |constructor; [reflexivity|constructor]
    |cbn [afterPut afterProbes s3_sent]; rewrite <- app_assoc, map_map; reflexivity
    |reflexivity].
Qed.

(** X7: a write the handler sends goes to the linked bucket, under the
    key of the last probe - the request sent just before it, everything
    earlier being probes as well - a key that carries a random suffix;
    it holds the decoded body of the request, declares the resolved
    content type, which is in [ALLOWED_MIME_TYPES], with encoding
    [utf-8] and ACL [public-read], and it is the last request of the
    invocation. *)
Theorem writes_store_the_decoded_body `{Runtime} (env : Env) (ev : RequestEvent)
    (st : State) :
  exists new,
    s3_sent (snd (upload env ev st)) = s3_sent st ++ new /\
    forall bucket key bytes ct enc acl,
      In (PutObjectCommand bucket key bytes ct enc acl) new ->
      bucket = ExistingStorage_name env
      /\ (exists b, body ev = Some b /\ bytes = decodeBody ev b)
      /\ ct = fst (resolveContentType ev bytes)
      /\ ct ∈ ALLOWED_MIME_TYPES
      /\ enc = "utf-8" /\ acl = "public-read"
      /\ last new = Some (PutObjectCommand bucket key bytes ct enc acl)
      /\ In (HeadObjectCommand bucket key) new
      /\ (exists earlier,
             new = earlier ++ [HeadObjectCommand bucket key;
                               PutObjectCommand bucket key bytes ct enc acl]
             /\ Forall (fun command => isPut command = false) earlier)
      /\ exists name randomString,
           key = withSuffix name randomString /\ isHex8 randomString = true.
Proof.
  destruct (upload_exit_eq env ev st) as (r & st' & -> & HE). cbn [snd].
  destruct HE.
  1-6: exists []; split; [symmetry; apply app_nil_r|intros ? ? ? ? ? ? []].
  all: match goal with
       | Ha : uniqueFilenameForBucket _ _ _ _ _ = _ |- _ =>
           destruct (alloc_last_probed _ _ _ _ _ Ha) as [Hk ->]
       end.
  all: match goal with
       | Hf : resolveFile _ _ _ _ = (Normal _, _) |- _ =>
           pose proof (resolveFile_contentType _ _ _ _ _ _ Hf) as Hct;
           destruct (resolveFile_content _ _ _ _ _ _ Hf) as [Hcontent Henc]
       end.
  all: eexists; split;
    [cbn [afterPut afterProbes s3_sent]; rewrite <- app_assoc; reflexivity|].
  all: intros bucket key bytes ct enc acl Hin.
  all: apply in_app_or in Hin as [Hin|[Hin|[]]];
    [apply in_map_iff in Hin as (i & Hi & _); discriminate Hi|].
  all: unfold putFor in Hin; injection Hin as <- <- <- <- <- <-.
  all: rewrite Henc, Hcontent.
  all: split_and!; try reflexivity; try (eexists; split; [eassumption|reflexivity]).
  all: try exact Hct.
  all: try assumption.
  all: try (unfold putFor; rewrite Henc, Hcontent; apply last_snoc).
  all: try (apply in_or_app; left; apply in_map_iff; exists (k - 1)%nat;
            split; [reflexivity|apply in_seq; lia]).
  all: try (exists (map (probe env (filename file) (entropy_used st)) (seq 0 (k - 1)));
            split;
            [unfold putFor; rewrite Henc, Hcontent;
             replace k with (S (k - 1)) at 1 by lia;
             rewrite seq_S, map_app, <- app_assoc; reflexivity
            |apply Forall_forall; intros command Hc;
             apply list_elem_of_fmap in Hc as (i & -> & _); reflexivity]).
  all: unfold candidate; eexists _, _; split; [reflexivity|apply suffix_hex8].
Qed.

(** X8: an answer 201 means that the write was the last request sent,
    that S3 accepted it, and that the url of the body and of the
    [location] header names the key that was written. *)
Theorem created_only_after_write `{Runtime} (env : Env) (ev : RequestEvent)
    (st : State) :
  statusCode (fst (upload env ev st)) = 201 ->
  exists sent key bytes ct,
    s3_sent (snd (upload env ev st)) =
      sent ++ [PutObjectCommand (ExistingStorage_name env) key bytes ct "utf-8" "public-read"]
    /\ S3_send env sent
         (PutObjectCommand (ExistingStorage_name env) key bytes ct "utf-8" "public-read")
       = None
    /\ fst (upload env ev st) =
         {| statusCode := 201;
            responseBody := "SUCCESS: " +:+ publicUrl env key;
            responseHeaders := Some {[ "location" := publicUrl env key ]} |}.
Proof.
  destruct (upload_exit_eq env ev st) as (r & st' & -> & HE). cbn [fst snd].
  destruct HE; cbn [statusCode response created]; try discriminate.
  intros _.
  match goal with
  | Hf : resolveFile _ _ _ _ = (Normal _, _) |- _ =>
      destruct (resolveFile_content _ _ _ _ _ _ Hf) as [Hcontent Henc]
  end.
  exists (s3_sent (afterProbes env (filename file) st k)), key, (content file),
    (contentType file).
  unfold afterPut, putFor in *. cbn [s3_sent]. rewrite Henc in *.
  split; [reflexivity|]. split; [assumption|reflexivity].
Qed.


(** ** Content types and synthesized filenames *)

(** X9: past the identity gate, a resolved content type outside
    [ALLOWED_MIME_TYPES] is answered 400 with a message naming the
    type, and nothing is sent to S3. *)
Theorem disallowed_type_rejected `{Runtime} (env : Env) (ev : RequestEvent)
    (st : State) (b u : string) (file : InboundFile) :
  body ev = Some b ->
  byteLength (decodeBody ev b) <= MAX_FILE_SIZE ->
  resolveFile env ev (decodeBody ev b) st = (Normal file, st) ->
  headers ev !! "soju-username" = Some u ->
  JS.includes (JS.split "," (default "" (USERNAME_ALLOW_LIST env))) u = true ->
  fst (resolveContentType ev (decodeBody ev b)) ∉ ALLOWED_MIME_TYPES ->
  upload env ev st =
    ({| statusCode := 400;
        responseBody :=
          "ERR: Content type " +:+ fst (resolveContentType ev (decodeBody ev b))
          +:+ " is not allowed";
        responseHeaders := None |}, st).
Proof.
  intros Hb Hsize Hfile Hu Hallow Hct.
  rewrite <- (resolveFile_contentType env ev _ st file st Hfile) in *.
  unfold upload, upload_try. rewrite Hb.
  destruct (Z.ltb_spec MAX_FILE_SIZE (byteLength (decodeBody ev b))); [lia|].
  unfold bind. rewrite Hfile, Hu, Hallow. cbn [negb].
  rewrite bool_decide_false by exact Hct. reflexivity.
Qed.

Lemma declared_type_is_trusted `{Runtime} (ev : RequestEvent) (ct : string) :
  headers ev !! "content-type" = Some ct ->
  ct <> "application/octet-stream" ->
  ct <> "application/x-www-form-urlencoded" ->
  forall bytes bytes' : list byte,
    fst (resolveContentType ev bytes) = ct
    /\ resolveContentType ev bytes = resolveContentType ev bytes'.
Proof.
  intros Hct Hne1 Hne2 bytes bytes'. unfold resolveContentType. rewrite Hct.
  destruct (String.eqb_spec ct "application/octet-stream"); [contradiction|].
  destruct (String.eqb_spec ct "application/x-www-form-urlencoded"); [contradiction|].
  split; reflexivity.
Qed.


Lemma split_unit_head d a r :
  contains_char d a = false ->
  JS.split (String d "") (a +:+ String d r) !! 0%nat = Some a.
Proof.
  intros Ha. rewrite split_unit_app, (split_unit_none d a Ha). reflexivity.
Qed.


(** X12: without a [content-disposition] header the filename is
    [upload-<Date.now()>.<extension>], and when the extension has no dot
    every candidate key is [upload-<Date.now()>-<suffix>.<extension>]. *)
Theorem synthesized_filename_and_key `{Runtime} (env : Env) (ev : RequestEvent)
    (bytes : list byte) (st : State) :
  headers ev !! "content-disposition" = None ->
  let extension := snd (resolveContentType ev bytes) in
  let now := JS.Number_toString (Date_now env) in
  fst (resolveFile env ev bytes st) =
    Normal {| filename := "upload-" +:+ now +:+ "." +:+ extension;
              contentType := fst (resolveContentType ev bytes);
              content := bytes;
              encoding := "utf-8" |}
  /\ (contains_char "." extension = false ->
      forall used i,
        candidate env ("upload-" +:+ now +:+ "." +:+ extension) used i =
        "upload-" +:+ now +:+ "-" +:+ suffix env used i +:+ "." +:+ extension).
Proof.
  intros Hcd extension now. split.
  - unfold resolveFile. subst extension.
    destruct (resolveContentType ev bytes) as [ct extension].
    unfold bind, resolveFilename. rewrite Hcd. reflexivity.
  - intros Hext used i. unfold candidate.
    change ("upload-" +:+ now +:+ "." +:+ extension)
      with ("upload-" +:+ (now +:+ "." +:+ extension)).
    rewrite <- (append_assoc "upload-" now ("." +:+ extension)).
    rewrite (withSuffix_dotted ("upload-" +:+ now) extension _ Hext).
    rewrite append_assoc. reflexivity.
Qed.


(** ** Extracting the filename *)

Lemma contains_char_app q a b :
  contains_char q (a +:+ b) = contains_char q a || contains_char q b.
Proof.
  induction a as [|c a IH]; [reflexivity|].
  rewrite append_cons. cbn [contains_char]. rewrite IH. apply orb_assoc.
Qed.

Lemma prefix_cons_cons a u c w :
  String.prefix (String a u) (String c w) = true -> a = c /\ String.prefix u w = true.
Proof.
  cbn [String.prefix]. destruct (ascii_dec a c) as [->|]; [|discriminate].
  intros Hp. split; [reflexivity|exact Hp].
Qed.

(** A prefix that ends in its first [q] matches where the first [q] is. *)
Lemma prefix_same_first q u v w z :
  String.prefix (u +:+ String q v) (w +:+ String q z) = true ->
  contains_char q u = false -> contains_char q w = false ->
  String.length u = String.length w.
Proof.
  revert w. induction u as [|a u IH]; intros [|c w] Hp Hu Hw; try reflexivity.
  - rewrite append_cons in Hp. change ("" +:+ String q v) with (String q v) in Hp.
    apply prefix_cons_cons in Hp as [<- _].
    cbn [contains_char] in Hw. rewrite Ascii.eqb_refl in Hw. discriminate.
  - rewrite append_cons in Hp. change ("" +:+ String q z) with (String q z) in Hp.
    apply prefix_cons_cons in Hp as [-> _].
    cbn [contains_char] in Hu. rewrite Ascii.eqb_refl in Hu. discriminate.
  - rewrite !append_cons in Hp. apply prefix_cons_cons in Hp as [<- Hp].
    cbn [contains_char] in Hu, Hw.
    apply orb_false_iff in Hu as [_ Hu]. apply orb_false_iff in Hw as [_ Hw].
    cbn [String.length]. f_equal. exact (IH w Hp Hu Hw).
Qed.

Lemma prefix_app_long sep x y :
  (String.length sep <= String.length x)%nat ->
  String.prefix sep (x +:+ y) = String.prefix sep x.
Proof.
  revert x. induction sep as [|a sep IH]; intros x Hlen.
  - destruct x, y; reflexivity.
  - destruct x as [|c x]; [cbn in Hlen; lia|].
    rewrite append_cons. cbn [String.prefix]. destruct (ascii_dec a c); [|reflexivity].
    apply IH. cbn in Hlen. lia.
Qed.

Lemma contains_prefix sep s : String.prefix sep s = true -> contains sep s = true.
Proof. intros Hp. destruct s; cbn [contains]; rewrite Hp; reflexivity. Qed.

Lemma split_scan_skip sep u rest :
  JS.split_scan sep (String.length u) (u +:+ rest) = JS.split_scan sep 0 rest.
Proof.
  induction u as [|c u IH]; [reflexivity|].
  rewrite append_cons. cbn [String.length JS.split_scan]. exact IH.
Qed.

Lemma split_scan_match a sep t :
  JS.split_scan (String a sep) 0 (String a sep +:+ t) =
  "" :: JS.split_scan (String a sep) 0 t.
Proof.
  assert (Hp : String.prefix (String a sep) (String a sep +:+ t) = true).
  { clear. generalize (String a sep). intros s. induction s as [|c s IH].
    - destruct t; reflexivity.
    - rewrite append_cons. cbn [String.prefix].
      destruct (ascii_dec c c); [exact IH|congruence]. }
  rewrite append_cons in *. cbn [JS.split_scan]. rewrite Hp.
  replace (String.length (String a sep) - 1)%nat with (String.length sep)
    by (cbn [String.length]; lia).
  f_equal. apply split_scan_skip.
Qed.

Lemma split_scan_no_match sep a t :
  (forall a1 c a2, a = a1 +:+ String c a2 ->
                   String.prefix sep (String c a2 +:+ t) = false) ->
  JS.split_scan sep 0 (a +:+ t) =
  match JS.split_scan sep 0 t with
  | h :: r => (a +:+ h) :: r
  | [] => [a]
  end.
Proof.
  induction a as [|c a IH]; intros Hno.
  - change ("" +:+ t) with t.
    pose proof (split_scan_not_nil sep 0 t) as Hnn.
    destruct (JS.split_scan sep 0 t) as [|h r]; [congruence|reflexivity].
  - rewrite append_cons. cbn [JS.split_scan].
    pose proof (Hno "" c a eq_refl) as Hp. rewrite append_cons in Hp. rewrite Hp.
    rewrite IH.
    + destruct (JS.split_scan sep 0 t); reflexivity.
    + intros a1 c' a2 ->. apply (Hno (String c a1) c' a2). reflexivity.
Qed.

Section Token.

(** A token [body] followed by a closing unit [q] that [body] lacks. *)
Variables (b0 : ascii) (body' : string) (q : ascii).
Let body := String b0 body'.
Let token := body +:+ String q "".
Hypothesis body_free : contains_char q body = false.

Lemma token_not_inside_prefix pre t a1 c a2 :
  contains_char q pre = false ->
  pre = a1 +:+ String c a2 ->
  String.prefix token (String c a2 +:+ token +:+ t) = false.
Proof.
  intros Hpre ->. rewrite contains_char_app in Hpre.
  apply orb_false_iff in Hpre as [_ Hsuf].
  destruct (String.prefix token (String c a2 +:+ token +:+ t)) eqn:Hp; [|reflexivity].
  exfalso. unfold token in Hp.
  rewrite (append_assoc body (String q "") t) in Hp.
  rewrite <- (append_assoc (String c a2) body (String q "" +:+ t)) in Hp.
  change (String q "" +:+ t) with (String q t) in Hp.
  apply prefix_same_first in Hp.
  - rewrite length_append in Hp. cbn [String.length] in Hp. lia.
  - exact body_free.
  - rewrite contains_char_app, Hsuf, body_free. reflexivity.
Qed.

Lemma token_not_inside_name name post a1 c a2 :
  contains_char q name = false ->
  contains token (name +:+ String q "") = false ->
  name +:+ String q "" = a1 +:+ String c a2 ->
  String.prefix token (String c a2 +:+ post) = false.
Proof.
  revert a1. induction name as [|x name IH]; intros a1 Hname Hno Heq.
  - change ("" +:+ String q "") with (String q "") in Heq.
    destruct a1 as [|y a1].
    + change ("" +:+ String c a2) with (String c a2) in Heq. injection Heq as <- <-.
      unfold token, body. rewrite !append_cons. cbn [String.prefix].
      destruct (ascii_dec b0 q) as [->|]; [|reflexivity].
      unfold body in body_free. cbn [contains_char] in body_free.
      rewrite Ascii.eqb_refl in body_free. discriminate.
    + rewrite append_cons in Heq. injection Heq as _ Heq.
      destruct a1; discriminate Heq.
  - rewrite append_cons in Heq. rewrite append_cons in Hno.
    cbn [contains] in Hno. apply orb_false_iff in Hno as [Hhere Hno].
    cbn [contains_char] in Hname. apply orb_false_iff in Hname as [Hx Hname].
    destruct a1 as [|y a1].
    + change ("" +:+ String c a2) with (String c a2) in Heq. rewrite <- Heq.
      destruct (String.prefix token (String x (name +:+ String q "") +:+ post)) eqn:Hp;
        [|reflexivity].
      exfalso.
      assert (Hlen : String.length body = String.length (String x name)).
      { unfold token in Hp. rewrite <- append_cons in Hp.
        rewrite (append_assoc (String x name) (String q "") post) in Hp.
        change (String q "" +:+ post) with (String q post) in Hp.
        apply prefix_same_first in Hp; [exact Hp|exact body_free|].
        cbn [contains_char]. rewrite Hx, Hname. reflexivity. }
      rewrite prefix_app_long in Hp.
      * rewrite Hp in Hhere. discriminate.
      * unfold token. rewrite <- append_cons, !length_append, Hlen. lia.
    + rewrite append_cons in Heq. injection Heq as _ Heq.
      exact (IH a1 Hname Hno Heq).
Qed.

(** [split(token)] of [pre token name q post]: element 1 begins with
    [name q]. *)
Lemma split_token pre name post :
  contains_char q pre = false ->
  contains_char q name = false ->
  contains token (name +:+ String q "") = false ->
  exists rest tl,
    JS.split token (pre +:+ token +:+ name +:+ String q post) =
      pre :: (name +:+ String q rest) :: tl.
Proof.
  intros Hpre Hname Hno.
  change (JS.split token (pre +:+ token +:+ name +:+ String q post))
    with (JS.split_scan token 0 (pre +:+ token +:+ name +:+ String q post)).
  rewrite split_scan_no_match.
  2:{ intros a1 c a2 Heq. apply (token_not_inside_prefix pre _ a1 c a2 Hpre Heq). }
  pose proof (split_scan_match b0 (body' +:+ String q "") (name +:+ String q post)) as Hm.
  change (String b0 (body' +:+ String q "")) with token in Hm. rewrite Hm. clear Hm.
  replace (name +:+ String q post) with ((name +:+ String q "") +:+ post)
    by (rewrite append_assoc; reflexivity).
  rewrite split_scan_no_match.
  2:{ intros a1 c a2 Heq. apply (token_not_inside_name name post a1 c a2 Hname Hno Heq). }
  pose proof (split_scan_not_nil token 0 post) as Hnn.
  destruct (JS.split_scan token 0 post) as [|h r]; [congruence|].
  exists h, r. f_equal.
  - clear. induction pre as [|c pre IH]; [reflexivity|]. rewrite append_cons, IH. reflexivity.
  - rewrite append_assoc. reflexivity.
Qed.

End Token.

(** X13: the filename is read back from the header that quotes it:
    from [<pre>filename=] followed by [<name>] between double quotes and
    by anything, with no double quote in [<pre>] or in [<name>] and
    [<name>] not ending in [filename=], the handler extracts [<name>]. *)
Theorem filename_round_trip `{Runtime} (env : Env) (ev : RequestEvent)
    (extension : string) (st : State) (pre name post : string) :
  headers ev !! "content-disposition" =
    Some (pre +:+ "filename=" +:+ JS.dquote +:+ name +:+ JS.dquote +:+ post) ->
  contains_char "034" pre = false ->
  contains_char "034" name = false ->
  contains ("filename=" +:+ JS.dquote) (name +:+ JS.dquote) = false ->
  resolveFilename env ev extension st = (Normal name, st).
Proof.
  intros Hcd Hpre Hname Hno. unfold resolveFilename. rewrite Hcd.
  assert (Hshape :
    pre +:+ "filename=" +:+ JS.dquote +:+ name +:+ JS.dquote +:+ post =
    pre +:+ ("filename=" +:+ String "034" "") +:+ name +:+ String "034" post).
  { reflexivity. }
  rewrite Hshape.
  destruct (split_token "f" "ilename=" "034" eq_refl pre name post Hpre Hname Hno)
    as (rest & tl & Hsplit).
  change (String "f" "ilename=" +:+ String "034" "") with ("filename=" +:+ JS.dquote)
    in Hsplit.
  change ("filename=" +:+ String "034" "") with ("filename=" +:+ JS.dquote).
  rewrite Hsplit. cbn [lookup list_lookup].
  destruct (String.eqb_spec (pre +:+ ("filename=" +:+ JS.dquote) +:+ name +:+ String "034" post) "")
    as [Hempty|_].
  { exfalso. apply (f_equal String.length) in Hempty.
    rewrite !length_append in Hempty. cbn in Hempty. lia. }
  change JS.dquote with (String "034" "") at 1.
  rewrite (split_unit_head "034" name rest Hname). reflexivity.
Qed.


(** ** Suffixes and keys *)

Lemma hex_digit_inj n m :
  (n < 16)%N -> (m < 16)%N -> JS.hex_digit n = JS.hex_digit m -> n = m.
Proof.
  intros Hn Hm.
  assert (En : exists i, (i < 16)%nat /\ n = N.of_nat i)
    by (exists (N.to_nat n); split; lia).
  assert (Em : exists j, (j < 16)%nat /\ m = N.of_nat j)
    by (exists (N.to_nat m); split; lia).
  destruct En as (i & Hi & ->), Em as (j & Hj & ->). intros Heq.
  assert (Hall :
    forallb (fun i => forallb (fun j =>
      implb (Ascii.eqb (JS.hex_digit (N.of_nat i)) (JS.hex_digit (N.of_nat j)))
            (Nat.eqb i j)) (seq 0 16)) (seq 0 16) = true)
    by (vm_compute; reflexivity).
  rewrite forallb_forall in Hall.
  specialize (Hall i (proj2 (in_seq 16 0 i) ltac:(lia))).
  rewrite forallb_forall in Hall.
  specialize (Hall j (proj2 (in_seq 16 0 j) ltac:(lia))).
  rewrite Heq, Ascii.eqb_refl in Hall. cbn [implb] in Hall.
  apply Nat.eqb_eq in Hall. congruence.
Qed.

Lemma hex_of_byte_inj a b : JS.hex_of_byte a = JS.hex_of_byte b -> a = b.
Proof.
  unfold JS.hex_of_byte. intros Heq. injection Heq as Hhi Hlo.
  pose proof (Byte.to_N_bounded a). pose proof (Byte.to_N_bounded b).
  apply hex_digit_inj in Hhi; [|apply N.Div0.div_lt_upper_bound; lia..].
  apply hex_digit_inj in Hlo; [|apply N.mod_lt; lia..].
  assert (Hn : Byte.to_N a = Byte.to_N b).
  { rewrite (N.div_mod (Byte.to_N a) 16), (N.div_mod (Byte.to_N b) 16) by lia.
    rewrite Hhi, Hlo. reflexivity. }
  pose proof (Byte.of_to_N a) as Ha. rewrite Hn, Byte.of_to_N in Ha. congruence.
Qed.

Lemma toString_hex_inj l l' : JS.toString_hex l = JS.toString_hex l' -> l = l'.
Proof.
  revert l'. induction l as [|a l IH]; intros [|b l'] Heq; try reflexivity;
    try discriminate Heq.
  cbn [JS.toString_hex] in Heq. unfold JS.hex_of_byte in Heq.
  rewrite !append_cons in Heq. injection Heq as Hhi Hlo Hrest.
  change ("" +:+ JS.toString_hex l) with (JS.toString_hex l) in Hrest.
  change ("" +:+ JS.toString_hex l') with (JS.toString_hex l') in Hrest.
  f_equal; [|exact (IH l' Hrest)].
  apply hex_of_byte_inj. unfold JS.hex_of_byte. congruence.
Qed.

Lemma append_inv_head (a b c : string) : a +:+ b = a +:+ c -> b = c.
Proof.
  induction a as [|x a IH]; [exact (fun E => E)|].
  rewrite !append_cons. intros Heq. injection Heq as Heq. exact (IH Heq).
Qed.

Lemma append_inv_tail (a b t : string) : a +:+ t = b +:+ t -> a = b.
Proof.
  intros Heq.
  assert (Hlen : String.length a = String.length b).
  { apply (f_equal String.length) in Heq. rewrite !length_append in Heq. lia. }
  revert b Heq Hlen. induction a as [|x a IH]; intros [|y b] Heq Hlen;
    try reflexivity; try discriminate Hlen.
  rewrite !append_cons in Heq. injection Heq as -> Heq. f_equal.
  apply IH; [exact Heq|]. cbn in Hlen. lia.
Qed.

Lemma withSuffix_inj name r r' : withSuffix name r = withSuffix name r' -> r = r'.
Proof.
  unfold withSuffix. destruct (JS.pop (JS.split "." name)) as [e|]; cbv zeta.
  - rewrite !append_assoc. intros Heq.
    apply append_inv_head in Heq. apply (append_inv_head "-") in Heq.
    exact (append_inv_tail _ _ _ Heq).
  - intros Heq. apply append_inv_head in Heq. exact (append_inv_head "-" _ _ Heq).
Qed.

(** X14: two candidate keys for one filename are equal exactly when
    the four random bytes behind them are equal. *)
Theorem candidate_keys_differ_with_the_bytes (env : Env) (name : string)
    (used used' i j : nat) :
  candidate env name used i = candidate env name used' j <->
  map (randomBytes_source env) (seq (used + 4 * i) 4) =
  map (randomBytes_source env) (seq (used' + 4 * j) 4).
Proof.
  unfold candidate, suffix. split.
  - intros Heq. apply toString_hex_inj. exact (withSuffix_inj _ _ _ Heq).
  - intros ->. reflexivity.
Qed.


(** ** The allocator, for any number of attempts *)

Lemma alloc_from env fn st n j :
  exists k,
    (j + 1 <= k <= j + S n)%nat /\
    uniqueFilenameForBucket env fn (ExistingStorage_name env) (S n)
      (afterProbes env fn st j) =
      (Normal (candidate env fn (entropy_used st) (k - 1)), afterProbes env fn st k) /\
    (forall i, (j <= i < k - 1)%nat ->
       S3_send env (s3_sent (afterProbes env fn st i))
         (probe env fn (entropy_used st) i) = None) /\
    ((k < j + S n)%nat ->
       S3_send env (s3_sent (afterProbes env fn st (k - 1)))
         (probe env fn (entropy_used st) (k - 1)) <> None).
Proof.
  revert j. induction n as [|n IH]; intros j; rewrite alloc_step.
  - exists (S j). replace (S j - 1)%nat with j by lia.
    split; [lia|]. split.
    + destruct (S3_send env _ _); reflexivity.
    + split; [intros i Hi; lia|intros Hk; lia].
  - destruct (S3_send env (s3_sent (afterProbes env fn st j))
                (probe env fn (entropy_used st) j)) as [e|] eqn:Hsend.
    + exists (S j). replace (S j - 1)%nat with j by lia.
      split; [lia|]. split; [reflexivity|].
      split; [intros i Hi; lia|]. intros _. rewrite Hsend. discriminate.
    + destruct (IH (S j)) as (k & Hk & Hrun & Hres & Hrej).
      exists k. split; [lia|]. rewrite Hrun. split; [reflexivity|]. split.
      * intros i Hi. destruct (decide (i = j)) as [->|Hne]; [exact Hsend|].
        apply Hres. lia.
      * intros Hlt. apply Hrej. lia.
Qed.

(** X15: with no attempt left the allocator throws and sends nothing;
    with [n + 1] attempts it never throws: it probes fresh candidates in
    turn, stops at the first probe that S3 rejects or after the last
    attempt, and returns the key it probed last. *)
Theorem allocator_stops_at_first_rejection (env : Env) (name : string) (st : State)
    (attempts : nat) :
  uniqueFilenameForBucket env name (ExistingStorage_name env) 0 st =
    (Throw (JS.JsError "Could not generate a unique filename"), st)
  /\ exists k,
       (1 <= k <= S attempts)%nat /\
       uniqueFilenameForBucket env name (ExistingStorage_name env) (S attempts) st =
         (Normal (candidate env name (entropy_used st) (k - 1)),
          afterProbes env name st k) /\
       (forall i, (i < k - 1)%nat ->
          S3_send env (s3_sent (afterProbes env name st i))
            (probe env name (entropy_used st) i) = None) /\
       ((k < S attempts)%nat ->
          S3_send env (s3_sent (afterProbes env name st (k - 1)))
            (probe env name (entropy_used st) (k - 1)) <> None).
Proof.
  split; [reflexivity|].
  destruct (alloc_from env name st attempts 0) as (k & Hk & Hrun & Hres & Hrej).
  rewrite afterProbes_0 in Hrun.
  exists k. split; [lia|]. split; [exact Hrun|]. split.
  - intros i Hi. apply Hres. lia.
  - intros Hlt. apply Hrej. lia.
Qed.

(** X16: against a bucket whose probe resolves exactly for the keys it
    holds, the allocated key is one the bucket holds only if it holds
    all three candidates. *)
Theorem allocated_key_is_free_unless_all_taken (env : Env) (name : string) (st : State)
    (occupied : string -> bool) (key : string) (st' : State) :
  (forall sent k,
     S3_send env sent (HeadObjectCommand (ExistingStorage_name env) k) = None <->
     occupied k = true) ->
  uniqueFilenameForBucket env name (ExistingStorage_name env) 3 st = (Normal key, st') ->
  occupied key = true <->
  (forall i, (i < 3)%nat -> occupied (candidate env name (entropy_used st) i) = true).
Proof.
  intros Hs3 Hrun.
  destruct (alloc_from env name st 2 0) as (k & Hk & Hrun' & Hres & Hrej).
  rewrite afterProbes_0, Hrun in Hrun'. injection Hrun' as -> _.
  split.
  - intros Hocc.
    assert (k = 3%nat) as ->.
    { destruct (decide (k < 3)%nat) as [Hlt|]; [|lia].
      exfalso. apply (Hrej ltac:(lia)). unfold probe. apply Hs3. exact Hocc. }
    intros i Hi. destruct (decide (i = 2%nat)) as [->|]; [exact Hocc|].
    specialize (Hres i ltac:(lia)). unfold probe in Hres. apply Hs3 in Hres. exact Hres.
  - intros Hall. apply Hall. lia.
Qed.


(** ** The earlier revision *)

Lemma upload_file_legacy_cases `{Runtime} ev st :
  upload_file_legacy ev st = (Normal None, st)
  \/ (exists b name,
        body ev = Some b /\ b <> "" /\
        upload_file_legacy ev st =
          (Normal (Some {| filename := name;
                           contentType :=
                             default "application/octet-stream"
                               (headers ev !! "content-type");
                           content := decodeBody ev b;
                           encoding := "utf-8" |}), st))
  \/ upload_file_legacy ev st = (Throw TypeError_split, st).
Proof.
  unfold upload_file_legacy.
  destruct (body ev) as [b|]; [|left; reflexivity].
  destruct (String.eqb_spec b ""); [left; reflexivity|].
  unfold bind.
  destruct (headers ev !! "content-disposition") as [cd|];
    [|right; left; eexists _, _; split; [reflexivity|split; [assumption|reflexivity]]].
  destruct (String.eqb cd "");
    [right; left; eexists _, _; split; [reflexivity|split; [assumption|reflexivity]]|].
  destruct (JS.split _ cd !! 1%nat);
    [right; left; eexists _, _; split; [reflexivity|split; [assumption|reflexivity]]
    |right; right; reflexivity].
Qed.

(** X17: in the earlier revision a request with no body or an empty
    one is answered 400, [ERR: Missing `username`] without the header
    and [ERR: Missing `file`] with it, whoever the user is. *)
Theorem legacy_missing_file `{Runtime} (env : Env) (ev : RequestEvent) (st : State) :
  body ev = None \/ body ev = Some "" ->
  upload_legacy env ev st =
    ({| statusCode := 400;
        responseBody :=
          match headers ev !! "soju-username" with
          | None => "ERR: Missing `username`"
          | Some _ => "ERR: Missing `file`"
          end;
        responseHeaders := None |}, st).
Proof.
  intros Hb. unfold upload_legacy, upload_try_legacy, bind, upload_file_legacy.
  destruct Hb as [-> | ->]; cbn [String.eqb];
    destruct (headers ev !! "soju-username"); reflexivity.
Qed.

(** X18: the earlier revision trusts the declared content type,
    [application/octet-stream] when there is none: past the identity
    gate a type that does not begin with [image/] is answered 400,
    [ERR: Invalid file type], and one that does goes on to S3. *)
Theorem legacy_type_gate `{Runtime} (env : Env) (ev : RequestEvent) (st : State)
    (u : string) (file : InboundFile) :
  upload_file_legacy ev st = (Normal (Some file), st) ->
  headers ev !! "soju-username" = Some u ->
  JS.includes (JS.split "," (default "" (USERNAME_ALLOW_LIST env))) u = true ->
  contentType file = default "application/octet-stream" (headers ev !! "content-type")
  /\ (String.prefix "image/" (contentType file) = false ->
      upload_legacy env ev st =
        ({| statusCode := 400; responseBody := "ERR: Invalid file type";
            responseHeaders := None |}, st))
  /\ (String.prefix "image/" (contentType file) = true ->
      (length (s3_sent st) < length (s3_sent (snd (upload_legacy env ev st))))%nat).
Proof.
  intros Hfile Hu Hallow. split; [|split].
  - destruct (upload_file_legacy_cases ev st) as [Hn|[(b & name & _ & _ & Hs)|Ht]];
      rewrite Hfile in *; try discriminate.
    injection Hs as ->. reflexivity.
  - intros Hno. unfold upload_legacy, upload_try_legacy, bind.
    rewrite Hfile, Hu, Hallow, Hno. reflexivity.
  - intros Himage. unfold upload_legacy, upload_try_legacy, bind.
    rewrite Hfile, Hu, Hallow, Himage. cbn [negb].
    pose proof (storeFile_sends env 200 file st) as Hlen.
    destruct (storeFile env 200 file st) as [[r|e] st']; exact Hlen.
Qed.

(** X19: in the earlier revision a request without a
    [content-disposition] value is named [unknown], and every candidate
    key for it is [-<suffix>.unknown]. *)
Theorem legacy_default_filename `{Runtime} (env : Env) (ev : RequestEvent) (st : State)
    (b : string) :
  body ev = Some b -> b <> "" ->
  headers ev !! "content-disposition" = None
    \/ headers ev !! "content-disposition" = Some "" ->
  (exists file, upload_file_legacy ev st = (Normal (Some file), st)
                /\ filename file = "unknown")
  /\ forall used i,
       candidate env "unknown" used i = "-" +:+ suffix env used i +:+ ".unknown".
Proof.
  intros Hb Hne Hcd. split.
  - unfold upload_file_legacy. rewrite Hb.
    destruct (String.eqb_spec b ""); [contradiction|]. unfold bind.
    destruct Hcd as [-> | ->]; eexists; split; reflexivity.
  - intros used i. unfold candidate. apply withSuffix_no_dot. reflexivity.
Qed.

Lemma upload_legacy_cases `{Runtime} env ev st :
  (exists code text,
      (code = 400 \/ code = 403 \/ code = 500) /\
      upload_legacy env ev st = (response code text, st))
  \/ exists file key k r,
       (1 <= k <= 3)%nat /\
       (statusCode r = 200 \/ statusCode r = 500) /\
       upload_legacy env ev st =
         (r, afterPut env file key (afterProbes env (filename file) st k)).
Proof.
  remember (upload_legacy env ev st) as p eqn:Hp.
  unfold upload_legacy, upload_try_legacy in Hp. unfold bind at 1 in Hp.
  destruct (upload_file_legacy_cases ev st) as [Hn|[(b & name & _ & _ & Hs)|Ht]].
  - rewrite Hn in Hp. left. destruct (headers ev !! "soju-username");
      subst p; eexists _, _; (split; [|reflexivity]); tauto.
  - rewrite Hs in Hp. set (file := {| filename := name |}) in Hp.
    destruct (headers ev !! "soju-username") as [u|];
      [|left; subst p; eexists _, _; (split; [|reflexivity]); tauto].
    destruct (JS.includes _ u); cbn [negb] in Hp;
      [|left; subst p; eexists _, _; (split; [|reflexivity]); tauto].
    destruct (String.prefix "image/" (contentType file)); cbn [negb] in Hp;
      [|left; subst p; eexists _, _; (split; [|reflexivity]); tauto].
    right. destruct (alloc_total env (filename file) st) as (key & k & Hk & Halloc).
    rewrite (storeFile_after_alloc env 200 file st key _ Halloc) in Hp.
    exists file, key, k.
    destruct (S3_send env _ (putFor env file key)); subst p;
      eexists; (split; [exact Hk|]); (split; [|reflexivity]); cbn; tauto.
  - rewrite Ht in Hp. left. subst p. eexists _, _; (split; [|reflexivity]); tauto.
Qed.

(** X20: the earlier revision answers 200, 400, 403 or 500 - it has no
    size limit - and sends at most three probes followed by at most one
    write, a write exactly when there was a probe. *)
Theorem legacy_io_shape `{Runtime} (env : Env) (ev : RequestEvent) (st : State) :
  let r := fst (upload_legacy env ev st) in
  let st' := snd (upload_legacy env ev st) in
  (statusCode r = 200 \/ statusCode r = 400 \/ statusCode r = 403 \/ statusCode r = 500)
  /\ exists k (writes : list S3Command),
       (k <= 3)%nat /\ (length writes <= 1)%nat /\
       (k = 0%nat <-> writes = []) /\
       Forall (fun w => isPut w = true) writes /\
       exists name,
         s3_sent st' =
           s3_sent st ++ map (probe env name (entropy_used st)) (seq 0 k) ++ writes.
Proof.
  cbv zeta.
  destruct (upload_legacy_cases env ev st)
    as [(code & text & Hcode & ->)|(file & key & k & r & Hk & Hr & ->)]; cbn [fst snd].
  - split; [cbn; tauto|]. exists 0%nat, [].
    split_and!; try (cbn; lia); try tauto; [constructor|].
    exists "". cbn. rewrite app_nil_r. reflexivity.
  - split; [tauto|]. exists k, [putFor env file key].
    split_and!; try (cbn; lia); try (split; [lia|intros; discriminate]);
      try (constructor; [reflexivity|constructor]).
    exists (filename file). cbn [afterPut afterProbes s3_sent]. rewrite <- app_assoc.
    reflexivity.
Qed.


(** ** The deployment *)
Import Config.




Lemma truthy_spec v : truthy v = true <-> exists s, v = Some s /\ s <> "".
Proof.
  unfold truthy. destruct v as [s|].
  - destruct (String.eqb_spec s ""); cbn [negb]; split.
    + discriminate.
    + intros (s' & Hs & Hne). congruence.
    + intros _. exists s. split; [reflexivity|assumption].
    + reflexivity.
  - split; [discriminate|]. intros (s & Hs & _). discriminate.
Qed.

Lemma forwarded_lookup condition key processEnv k :
  forwarded condition key processEnv !! k =
  if condition && bool_decide (k = key) then processEnv !! key else None.
Proof.
  unfold forwarded. destruct condition; cbn [andb]; [|apply lookup_empty].
  destruct (processEnv !! key) as [v|] eqn:Hv.
  - case_bool_decide as Hk.
    + subst k. apply lookup_singleton_eq.
    + apply lookup_singleton_ne. congruence.
  - rewrite lookup_empty. destruct (bool_decide (k = key)); reflexivity.
Qed.

Lemma environment_lookup stage storageName processEnv k :
  environment stage storageName processEnv !! k =
  if bool_decide (k = "CDN_DOMAIN") then
    if String.eqb stage "production" && truthy (processEnv !! "CDN_DOMAIN")
    then processEnv !! "CDN_DOMAIN" else None
  else if bool_decide (k = "USERNAME_ALLOW_LIST") then
    if truthy (processEnv !! "USERNAME_ALLOW_LIST")
    then processEnv !! "USERNAME_ALLOW_LIST" else None
  else if bool_decide (k = "BUCKET_NAME") then Some storageName
  else None.
Proof.
  unfold environment, spread. rewrite !lookup_union, !forwarded_lookup.
  repeat case_bool_decide; subst; try discriminate;
    rewrite ?andb_true_r, ?andb_false_r;
    rewrite ?lookup_singleton_eq, ?lookup_singleton_ne by (discriminate || congruence).
  all: repeat match goal with
         | |- context [if ?c then _ else _] => destruct c
         | |- context [?m !! ?k] => destruct (m !! k)
         end; reflexivity.
Qed.


(** X22: [app] protects and retains the resources of the stage
    [production] and of no other stage, in both revisions of the
    configuration. *)
Theorem production_is_protected (stage : string) :
  (protect (app stage) = true <-> stage = "production")
  /\ (removal (app stage) = "retain" <-> stage = "production")
  /\ (removal (app stage) = "remove" <-> stage <> "production")
  /\ protect (app_initial stage) = protect (app stage)
  /\ removal (app_initial stage) = removal (app stage).
Proof.
  unfold app, app_initial. cbn [protect removal JS.includes existsb].
  rewrite orb_false_r.
  destruct (String.eqb_spec stage "production") as [->|Hne]; split_and!;
    try reflexivity; split; try tauto; try discriminate; try congruence.
Qed.

(** X23: the route's environment holds [BUCKET_NAME], holds
    [USERNAME_ALLOW_LIST] exactly when the deploying environment has a
    non-empty one, holds [CDN_DOMAIN] exactly when the stage is
    [production] and the deploying environment has a non-empty one, and
    holds nothing else. *)
Theorem environment_forwarding (stage storageName : string)
    (processEnv : gmap string string) :
  let e := environment stage storageName processEnv in
  e !! "BUCKET_NAME" = Some storageName
  /\ (forall v, e !! "USERNAME_ALLOW_LIST" = Some v <->
                processEnv !! "USERNAME_ALLOW_LIST" = Some v /\ v <> "")
  /\ (forall v, e !! "CDN_DOMAIN" = Some v <->
                stage = "production" /\ processEnv !! "CDN_DOMAIN" = Some v /\ v <> "")
  /\ (forall k, k <> "BUCKET_NAME" -> k <> "USERNAME_ALLOW_LIST" -> k <> "CDN_DOMAIN" ->
                e !! k = None).
Proof.
  cbv zeta. split_and!.
  - rewrite environment_lookup. reflexivity.
  - intros v. rewrite environment_lookup. cbn [bool_decide decide_rel].
    rewrite bool_decide_false by discriminate. rewrite bool_decide_true by reflexivity.
    destruct (truthy (processEnv !! "USERNAME_ALLOW_LIST")) eqn:Ht.
    + apply truthy_spec in Ht as (s & Hs & Hne). rewrite Hs. split.
      * intros [= <-]. split; [reflexivity|assumption].
      * intros [Hv _]. exact Hv.
    + split; [discriminate|]. intros [Hv Hne].
      assert (truthy (processEnv !! "USERNAME_ALLOW_LIST") = true) as Habs
        by (apply truthy_spec; eauto).
      congruence.
  - intros v. rewrite environment_lookup. rewrite bool_decide_true by reflexivity.
    destruct (String.eqb_spec stage "production") as [->|Hstage]; cbn [andb].
    + destruct (truthy (processEnv !! "CDN_DOMAIN")) eqn:Ht.
      * apply truthy_spec in Ht as (s & Hs & Hne). rewrite Hs. split.
        -- intros [= <-]. split_and!; [reflexivity..|assumption].
        -- intros (_ & Hv & _). exact Hv.
      * split; [discriminate|]. intros (_ & Hv & Hne).
        assert (truthy (processEnv !! "CDN_DOMAIN") = true) as Habs
          by (apply truthy_spec; eauto).
        congruence.
    + split; [discriminate|]. intros (Hs & _). contradiction.
  - intros k H1 H2 H3. rewrite environment_lookup.
    rewrite !bool_decide_false by assumption. reflexivity.
Qed.

(** X24: as deployed, the handler's urls are on the development
    bucket's S3 host outside [production], whatever [CDN_DOMAIN] is; in
    [production] they are on [CDN_DOMAIN] when it is set and not empty,
    on the production bucket's S3 host otherwise. *)
Theorem deployed_url_host (stage storageName : string) (processEnv : gmap string string)
    (now : Z) (source : nat -> byte)
    (s3 : list S3Command -> S3Command -> option JS.Thrown) (key : string) :
  let env := deployed stage storageName processEnv now source s3 in
  (stage <> "production" ->
     publicUrl env key =
       "https://tmp-soju-upload-handler-aws-dev.s3.amazonaws.com/" +:+ key)
  /\ (stage = "production" ->
      (forall v, processEnv !! "CDN_DOMAIN" = Some v -> v <> "" ->
                 publicUrl env key = "https://" +:+ v +:+ "/" +:+ key)
      /\ (processEnv !! "CDN_DOMAIN" = None \/ processEnv !! "CDN_DOMAIN" = Some "" ->
          publicUrl env key = "https://shottr-handler-prod.s3.amazonaws.com/" +:+ key)).
Proof.
  cbv zeta. unfold publicUrl, deployed. cbn [CDN_DOMAIN ExistingStorage_name].
  rewrite environment_lookup, bool_decide_true by reflexivity. unfold bucketName.
  split.
  - intros Hstage. destruct (String.eqb_spec stage "production"); [contradiction|].
    reflexivity.
  - intros ->. cbn [String.eqb Ascii.eqb Bool.eqb andb]. split.
    + intros v Hv Hne. rewrite Hv. cbn [truthy].
      destruct (String.eqb_spec v ""); [contradiction|]. cbn [negb].
      destruct (String.eqb_spec v ""); [contradiction|]. reflexivity.
    + intros [-> | ->]; reflexivity.
Qed.

(** X25: deployed without an allow-list, or with an empty one, the
    handler has no [USERNAME_ALLOW_LIST], and the usernames it admits
    are the empty one alone. *)
Theorem deployed_without_allow_list (stage storageName : string)
    (processEnv : gmap string string) (now : Z) (source : nat -> byte)
    (s3 : list S3Command -> S3Command -> option JS.Thrown) (u : string) :
  processEnv !! "USERNAME_ALLOW_LIST" = None
    \/ processEnv !! "USERNAME_ALLOW_LIST" = Some "" ->
  let env := deployed stage storageName processEnv now source s3 in
  USERNAME_ALLOW_LIST env = None
  /\ (JS.includes (JS.split "," (default "" (USERNAME_ALLOW_LIST env))) u = true
      <-> u = "").
Proof.
  intros Hpe. cbv zeta. unfold deployed. cbn [USERNAME_ALLOW_LIST].
  rewrite environment_lookup.
  rewrite bool_decide_false by discriminate. rewrite bool_decide_true by reflexivity.
  assert (Hf : (if truthy (processEnv !! "USERNAME_ALLOW_LIST")
                then processEnv !! "USERNAME_ALLOW_LIST" else None) = None).
  { destruct Hpe as [-> | ->]; reflexivity. }
  rewrite Hf. split; [reflexivity|].
  change (JS.split "," (default "" None)) with [""].
  unfold JS.includes. cbn [existsb]. rewrite orb_false_r. split.
  - intros Heq. apply String.eqb_eq in Heq. exact Heq.
  - intros ->. reflexivity.
Qed.

(** X26: as deployed, every request of the handler names the bucket of
    the stage, whose objects the route's permissions cover. *)
Theorem deployed_requests_stay_in_the_bucket `{Runtime} (stage storageName : string)
    (processEnv : gmap string string) (now : Z) (source : nat -> byte)
    (s3 : list S3Command -> S3Command -> option JS.Thrown)
    (ev : RequestEvent) (st : State) :
  let env := deployed stage storageName processEnv now source s3 in
  exists new,
    s3_sent (snd (upload env ev st)) = s3_sent st ++ new /\
    Forall (fun command =>
              Bucket_of command = bucketName stage /\
              forall p, In p (permissions stage) ->
                        In ("arn:aws:s3:::" +:+ Bucket_of command +:+ "/*") (resources p))
      new.
Proof.
  cbv zeta. set (env := deployed stage storageName processEnv now source s3).
  assert (Hcover : forall command,
    Bucket_of command = ExistingStorage_name env ->
    Bucket_of command = bucketName stage /\
    forall p, In p (permissions stage) ->
              In ("arn:aws:s3:::" +:+ Bucket_of command +:+ "/*") (resources p)).
  { intros command Hb. split; [exact Hb|]. intros p [<-|[]]. rewrite Hb.
    cbn [resources]. right. left. reflexivity. }
  destruct (upload_exit_eq env ev st) as (r & st' & -> & HE). cbn [snd].
  destruct HE.
  1-6: exists []; split; [symmetry; apply app_nil_r|constructor].
  all: eexists; split;
    [cbn [afterPut afterProbes s3_sent]; rewrite <- app_assoc; reflexivity|].
  all: apply Forall_app; split;
    [apply Forall_forall; intros command Hin;
     apply list_elem_of_In, in_map_iff in Hin as (i & <- & _);
     apply Hcover; reflexivity
    |constructor; [apply Hcover; reflexivity|constructor]].
Qed.

(** X21: in the earlier revision the filename is extracted before the
    username is looked at: a body with a [content-disposition] header
    that is not empty and lacks [filename=] followed by a double quote
    is answered 500, whoever sent it. *)
Theorem legacy_disposition_throws_first `{Runtime} (env : Env) (ev : RequestEvent)
    (st : State) (b cd : string) :
  body ev = Some b -> b <> "" ->
  headers ev !! "content-disposition" = Some cd ->
  cd <> "" ->
  contains ("filename=" +:+ JS.dquote) cd = false ->
  upload_legacy env ev st =
    ({| statusCode := 500;
        responseBody :=
          "ERR: Application error: " +:+
          "Cannot read properties of undefined (reading 'split')";
        responseHeaders := None |}, st).
Proof.
  intros Hb Hne Hcd Hcdne Hno.
  unfold upload_legacy, upload_try_legacy, upload_file_legacy. rewrite Hb, Hcd.
  destruct (String.eqb_spec b ""); [contradiction|].
  destruct (String.eqb_spec cd ""); [contradiction|].
  rewrite (split_without_separator _ cd) by (discriminate || exact Hno).
  reflexivity.
Qed.


(** X10: a declared content type other than the two generic ones is
    taken at its word: whatever the sniffer would say of the bytes, the
    answer and the requests sent are the same. *)
Theorem declared_type_bypasses_sniffing (H : Runtime) (env : Env) (ev : RequestEvent)
    (st : State) (ct : string) (sniff : list byte -> option FileTypeResult) :
  headers ev !! "content-type" = Some ct ->
  ct <> "application/octet-stream" ->
  ct <> "application/x-www-form-urlencoded" ->
  upload (H := withSniffer H sniff) env ev st = upload (H := H) env ev st.
Proof.
  intros Hct Hne1 Hne2. unfold upload, upload_try.
  destruct (body ev) as [b|]; [|reflexivity].
  change (@decodeBody (withSniffer H sniff) ev b) with (@decodeBody H ev b).
  destruct (MAX_FILE_SIZE <? byteLength (decodeBody ev b)); [reflexivity|].
  assert (Hres : @resolveContentType (withSniffer H sniff) ev (decodeBody ev b) =
                 @resolveContentType H ev (decodeBody ev b)).
  { unfold resolveContentType. rewrite Hct.
    destruct (String.eqb_spec ct "application/octet-stream"); [contradiction|].
    destruct (String.eqb_spec ct "application/x-www-form-urlencoded"); [contradiction|].
    reflexivity. }
  assert (Hfile : @resolveFile (withSniffer H sniff) env ev (decodeBody ev b) =
                  @resolveFile H env ev (decodeBody ev b)).
  { unfold resolveFile. rewrite Hres. reflexivity. }
  rewrite Hfile. reflexivity.
Qed.

(** ** The rest of the code on concrete requests *)

Lemma created_only_after_write_witness :
  exists sent key bytes ct,
    s3_sent (snd (upload production (namedRequest "alice") initial)) =
      sent ++ [PutObjectCommand "shottr-handler-prod" key bytes ct "utf-8" "public-read"]
    /\ S3_send production sent
         (PutObjectCommand "shottr-handler-prod" key bytes ct "utf-8" "public-read")
       = None
    /\ fst (upload production (namedRequest "alice") initial) =
         {| statusCode := 201;
            responseBody := "SUCCESS: " +:+ publicUrl production key;
            responseHeaders := Some {[ "location" := publicUrl production key ]} |}.
Proof.
  apply (created_only_after_write (H := runtime) production (namedRequest "alice") initial).
  vm_compute. reflexivity.
Defined.

Lemma disallowed_type_rejected_witness :
  upload production (declaredRequest "text/plain; charset=utf-8" "a.txt") initial =
    ({| statusCode := 400;
        responseBody :=
          "ERR: Content type "
          +:+ fst (resolveContentType (declaredRequest "text/plain; charset=utf-8" "a.txt")
                     (decodeBody (declaredRequest "text/plain; charset=utf-8" "a.txt")
                        pngBody))
          +:+ " is not allowed";
        responseHeaders := None |}, initial).
Proof.
  apply (disallowed_type_rejected (H := runtime) production
           (declaredRequest "text/plain; charset=utf-8" "a.txt") initial pngBody "alice"
           {| filename := "a.txt"; contentType := "text/plain; charset=utf-8";
              content := decode pngBody; encoding := "utf-8" |}
           eq_refl ltac:(small) eq_refl eq_refl eq_refl).
  intros Hin. apply (bool_decide_pack _) in Hin. vm_compute in Hin. exact Hin.
Defined.

(** The same request, run: the parameter makes [text/plain] a type that
    is not allowed. *)
Example charset_parameter_run :
  upload production (declaredRequest "text/plain; charset=utf-8" "a.txt") initial =
    ({| statusCode := 400;
        responseBody := "ERR: Content type text/plain; charset=utf-8 is not allowed";
        responseHeaders := None |}, initial).
Proof. vm_compute. reflexivity. Qed.

Lemma declared_type_bypasses_sniffing_witness :
  upload (H := withSniffer runtime (fun _ => None)) production
    (declaredRequest "image/png" "a.png") initial =
  upload (H := runtime) production (declaredRequest "image/png" "a.png") initial.
Proof.
  apply (declared_type_bypasses_sniffing runtime production
           (declaredRequest "image/png" "a.png") initial "image/png" (fun _ => None)
           eq_refl); discriminate.
Defined.


Lemma synthesized_filename_and_key_witness :
  fst (resolveFile production (octetRequest pngBody) (decode pngBody) initial) =
    Normal {| filename := "upload-1700000000000.png"; contentType := "image/png";
              content := decode pngBody; encoding := "utf-8" |}
  /\ candidate production "upload-1700000000000.png" 0 0 =
     "upload-1700000000000-03142536.png".
Proof.
  pose proof (synthesized_filename_and_key (H := runtime) production
                (octetRequest pngBody) (decode pngBody) initial eq_refl) as [Hfile Hkey].
  split; [exact Hfile|]. exact (Hkey eq_refl 0%nat 0%nat).
Defined.

Lemma filename_round_trip_witness :
  resolveFilename production (declaredRequest "image/jpeg" "cat.jpg") "jpeg" initial =
    (Normal "cat.jpg", initial).
Proof.
  apply (filename_round_trip (H := runtime) production
           (declaredRequest "image/jpeg" "cat.jpg") "jpeg" initial
           "attachment; " "cat.jpg" ""
           ltac:(vm_compute; reflexivity) eq_refl eq_refl eq_refl).
Defined.

(** A name that ends in [filename=] is cut short: the closing quote
    completes a second token. *)
Example filename_ending_in_token :
  resolveFilename production (declaredRequest "image/jpeg" "my-filename=") "jpeg" initial =
    (Normal "my-", initial).
Proof. vm_compute. reflexivity. Qed.

Lemma allocated_key_is_free_unless_all_taken_witness :
  JS.includes ["a-03142536.png"] "a-4758697a.png" = true <->
  (forall i, (i < 3)%nat ->
     JS.includes ["a-03142536.png"]
       (candidate (mkEnv (Some "alice") None (bucketHolding ["a-03142536.png"]))
          "a.png" 0 i) = true).
Proof.
  apply (allocated_key_is_free_unless_all_taken
           (mkEnv (Some "alice") None (bucketHolding ["a-03142536.png"]))
           "a.png" initial (JS.includes ["a-03142536.png"]) "a-4758697a.png"
           (afterProbes (mkEnv (Some "alice") None (bucketHolding ["a-03142536.png"]))
              "a.png" initial 2)).
  - intros sent k. cbn [S3_send mkEnv bucketHolding].
    destruct (JS.includes ["a-03142536.png"] k); split; congruence.
  - vm_compute. reflexivity.
Defined.

Lemma legacy_missing_file_witness :
  upload_legacy production (bodyRequest [("soju-username", "mallory")] "") initial =
    ({| statusCode := 400;
        responseBody :=
          match headers (bodyRequest [("soju-username", "mallory")] "") !! "soju-username" with
          | None => "ERR: Missing `username`"
          | Some _ => "ERR: Missing `file`"
          end;
        responseHeaders := None |}, initial).
Proof.
  apply (legacy_missing_file (H := runtime) production
           (bodyRequest [("soju-username", "mallory")] "") initial).
  right. reflexivity.
Defined.

Lemma legacy_type_gate_witness :
  contentType {| filename := "a.pdf"; contentType := "application/pdf";
                 content := decode pngBody; encoding := "utf-8" |} =
    default "application/octet-stream"
      (headers (declaredRequest "application/pdf" "a.pdf") !! "content-type")
  /\ upload_legacy production (declaredRequest "application/pdf" "a.pdf") initial =
       ({| statusCode := 400; responseBody := "ERR: Invalid file type";
           responseHeaders := None |}, initial).
Proof.
  pose proof (legacy_type_gate (H := runtime) production
                (declaredRequest "application/pdf" "a.pdf") initial "alice"
                {| filename := "a.pdf"; contentType := "application/pdf";
                   content := decode pngBody; encoding := "utf-8" |}
                ltac:(vm_compute; reflexivity) eq_refl eq_refl) as (Hct & Hno & _).
  split; [exact Hct|]. exact (Hno eq_refl).
Defined.

Lemma legacy_default_filename_witness :
  (exists file,
      upload_file_legacy (unnamedRequest "image/png") initial = (Normal (Some file), initial)
      /\ filename file = "unknown")
  /\ forall used i,
       candidate production "unknown" used i =
       "-" +:+ suffix production used i +:+ ".unknown".
Proof.
  apply (legacy_default_filename (H := runtime) production (unnamedRequest "image/png")
           initial pngBody eq_refl ltac:(discriminate) (or_introl eq_refl)).
Defined.

Lemma legacy_disposition_throws_first_witness :
  upload_legacy (mkEnv None None emptyBucket)
    (request [("content-disposition", "attachment")]) initial =
    ({| statusCode := 500;
        responseBody :=
          "ERR: Application error: " +:+
          "Cannot read properties of undefined (reading 'split')";
        responseHeaders := None |}, initial).
Proof.
  apply (legacy_disposition_throws_first (H := runtime) (mkEnv None None emptyBucket)
           (request [("content-disposition", "attachment")]) initial pngBody "attachment"
           eq_refl ltac:(discriminate) eq_refl ltac:(discriminate) eq_refl).
Defined.

Lemma deployed_without_allow_list_witness :
  USERNAME_ALLOW_LIST
    (deployed "production" "ExistingStorage" deployEnvironment 1700000000000 entropy
       emptyBucket) = None
  /\ (JS.includes
        (JS.split ","
           (default ""
              (USERNAME_ALLOW_LIST
                 (deployed "production" "ExistingStorage" deployEnvironment
                    1700000000000 entropy emptyBucket)))) "" = true
      <-> "" = "").
Proof.
  apply (deployed_without_allow_list "production" "ExistingStorage" deployEnvironment
           1700000000000 entropy emptyBucket "" (or_introl eq_refl)).
Defined.

(** The deployed handler, run: no allow-list, an empty username, stage
    [dev] with [CDN_DOMAIN] set at deploy time. *)
Example deployed_dev_run :
  fst (upload
         (deployed "dev" "ExistingStorage" deployEnvironment 1700000000000 entropy
            emptyBucket)
         (namedRequest "") initial) =
    {| statusCode := 201;
       responseBody :=
         "SUCCESS: https://tmp-soju-upload-handler-aws-dev.s3.amazonaws.com/a-03142536.png";
       responseHeaders :=
         Some {[ "location" :=
                   "https://tmp-soju-upload-handler-aws-dev.s3.amazonaws.com/a-03142536.png" ]} |}.
Proof. vm_compute. reflexivity. Qed.
